(** * MmxRequest: trial planning, staging and contribution ranking

    A shallow embedding of [model/MmxRequest.py] (class [MmxRequest]) and
    the properties of it that the design document states.

    Conventions of the embedding.
    - Python exceptions are values of [exn]; a method that may raise
      returns a [result].
    - A [dict] is an association list in insertion order with unique keys,
      which is the order Python iterates it in.
    - The numbers that [float] reads from a result table are exact
      rationals ([Q]) in aggregation, in staging and where only the shape
      of a ranking matters; the ranking itself, whose order depends on how
      doubles round and compare, is modelled on IEEE 754 binary64 numbers
      in [Doubles].
    - The disk is a finite map from literal path strings to nodes; the
      result tables that [csv.reader] yields are kept in a second map keyed
      by the path of the file.
    - [random] is a tape of draws threaded through the planner. *)

From Stdlib Require Import Ascii String QArith Qminmax Floats.
From stdpp Require Import gmap strings list pretty sorting.

Open Scope string_scope.
Open Scope list_scope.

(** A decimal literal in [float_scope] stands for the double nearest to
    it, as it does in Python. *)
#[local] Set Warnings "-inexact-float".

(** ** Exceptions and the error monad *)

Inductive exn : Type :=
| RuntimeError (msg : string)
| TypeError (msg : string)
| ValueError (msg : string)
| KeyError (key : string)
| IndexError (index : nat)
| AttributeError (msg : string)
| ZeroDivisionError
| FileNotFoundError (path : string)
| FileExistsError (path : string)
| IsADirectoryError (path : string)
| SameFileError (src dst : string).

Inductive result (A : Type) : Type :=
| Ok (a : A)
| Raise (e : exn).
Arguments Ok {A} a.
Arguments Raise {A} e.

#[global] Instance result_ret : MRet result := λ A a, Ok a.

#[global] Instance result_bind : MBind result := λ A B k m,
  match m with
  | Ok a => k a
  | Raise e => Raise e
  end.

(** A [for] loop whose body may [return]: the body answers [Next] with the
    updated loop state, or [Return] with the value the enclosing function
    returns at once. *)
Inductive flow (S R : Type) : Type :=
| Next (s : S)
| Return (r : R).
Arguments Next {S R} s.
Arguments Return {S R} r.

Fixpoint for_each {A S R : Type} (xs : list A)
    (body : A → S → result (flow S R)) (s : S) : result (flow S R) :=
  match xs with
  | [] => Ok (Next s)
  | x :: xs' =>
      match body x s with
      | Raise e => Raise e
      | Ok (Return r) => Ok (Return r)
      | Ok (Next s') => for_each xs' body s'
      end
  end.

(** A [for] loop with no [return] in its body, in any of the monads below. *)
Fixpoint for_in {M : Type → Type} `{!MBind M, !MRet M} {A S : Type}
    (xs : list A) (body : A → S → M S) (s : S) : M S :=
  match xs with
  | [] => mret s
  | x :: xs' => s' ← body x s; for_in xs' body s'
  end.

(** Code that also reads and writes a state [St] (the disk, the random
    generator). The state survives an exception: what was written before
    the [raise] stays written. *)
Definition st (St A : Type) : Type := St → result A * St.

#[global] Instance st_ret {St : Type} : MRet (st St) := λ A a s, (Ok a, s).

#[global] Instance st_bind {St : Type} : MBind (st St) := λ A B k m s,
  match m s with
  | (Ok a, s') => k a s'
  | (Raise e, s') => (Raise e, s')
  end.

Definition raise {St A : Type} (e : exn) : st St A := λ s, (Raise e, s).

(** Code that may raise but leaves the state alone. *)
Definition lift {St A : Type} (r : result A) : st St A := λ s, (r, s).

(** ** Python strings *)

Module PyStr.

(** [sub in s] *)
Fixpoint contains (sub s : string) : bool :=
  String.prefix sub s ||
  match s with
  | EmptyString => false
  | String _ s' => contains sub s'
  end.

(** [s.split(sep)[0]]: the text before the first occurrence of [sep], the
    whole of [s] when there is none. *)
Fixpoint split_head (sep s : string) : string :=
  if String.prefix sep s then EmptyString
  else match s with
       | EmptyString => EmptyString
       | String c s' => String c (split_head sep s')
       end.

(** The ASCII characters for which [str.isspace] holds. *)
Definition isspace (c : ascii) : bool :=
  let n := nat_of_ascii c in
  ((9 <=? n)%nat && (n <=? 13)%nat) || ((28 <=? n)%nat && (n <=? 32)%nat).

Fixpoint lstrip (s : string) : string :=
  match s with
  | EmptyString => EmptyString
  | String c s' => if isspace c then lstrip s' else s
  end.

Fixpoint rstrip (s : string) : string :=
  match s with
  | EmptyString => EmptyString
  | String c s' =>
      match rstrip s' with
      | EmptyString => if isspace c then EmptyString else String c EmptyString
      | r => String c r
      end
  end.

(** [s.strip()] *)
Definition strip (s : string) : string := rstrip (lstrip s).

(** [str(n)] for a non-negative integer *)
Definition of_nat (n : nat) : string := pretty n.

End PyStr.

(** ** [os.path] *)

Module OsPath.

Fixpoint ends_with_slash (s : string) : bool :=
  match s with
  | EmptyString => false
  | String c EmptyString => if ascii_dec c "/" then true else false
  | String _ s' => ends_with_slash s'
  end.

(** [os.path.join(a, b)] of [posixpath] *)
Definition join (a b : string) : string :=
  if String.prefix "/" b then b
  else if (String.eqb a EmptyString || ends_with_slash a)%bool then a +:+ b
  else a +:+ "/" +:+ b.

(** [os.path.basename(p)]: what follows the last slash. *)
Fixpoint basename (p : string) : string :=
  match p with
  | EmptyString => EmptyString
  | String c p' =>
      if PyStr.contains "/" p then basename p' else p
  end.

End OsPath.

(** ** Dictionaries in insertion order *)

Definition dict (V : Type) : Type := list (string * V).

Fixpoint dict_get {V : Type} (k : string) (d : dict V) : option V :=
  match d with
  | [] => None
  | (k', v) :: d' => if String.eqb k k' then Some v else dict_get k d'
  end.

(** [d[k] = v]: an existing key keeps its place, a new one goes last. *)
Fixpoint dict_set {V : Type} (k : string) (v : V) (d : dict V) : dict V :=
  match d with
  | [] => [(k, v)]
  | (k', v') :: d' =>
      if String.eqb k k' then (k', v) :: d' else (k', v') :: dict_set k v d'
  end.

Definition dict_keys {V : Type} (d : dict V) : list string := d.*1.

(** [dict(zip(ks, vs))] *)
Definition dict_of_zip {V : Type} (ks : list string) (vs : list V) : dict V :=
  fold_left (λ d kv, dict_set kv.1 kv.2 d) (zip ks vs) [].

(** ** Data model *)

Record ObservationFile : Type := {
  _filePath : string;
  _species : string
}.

Record GeospatialImageFile : Type := {
  fileName : string
}.

#[global] Instance GeospatialImageFile_eq_dec : EqDecision GeospatialImageFile.
Proof. solve_decision. Defined.

(** [Trial = namedtuple('Trial', ['directory', 'obsFile', 'images'])] *)
Record Trial : Type := {
  directory : string;
  obsFile : ObservationFile;
  images : list GeospatialImageFile
}.

(** A data cell of a result table, by what [float] makes of its text. *)
Inductive cell : Type :=
| FloatCell (q : Q)
| TextCell (s : string).

Definition py_float (c : cell) : result Q :=
  match c with
  | FloatCell q => Ok q
  | TextCell s => Raise (ValueError ("could not convert string to float: " +:+ s))
  end.

(** What [csv.reader] yields for a file: nothing at all, so that the first
    [__next__] raises, or a header followed by data rows. *)
Inductive csv_file : Type :=
| NoHeader
| Table (header : list string) (rows : list (list cell)).

(** ** [_compileContributions] *)

Definition CONTRIB_KWD : string := "permutation".

Definition contributions_of_key (rowDict : dict cell) (key : string)
    (contributions : dict (list Q)) : result (dict (list Q)) :=
  if PyStr.contains CONTRIB_KWD key then
    let newKey := PyStr.strip (PyStr.split_head CONTRIB_KWD key) in
    let contributions :=
      match dict_get newKey contributions with
      | None => dict_set newKey [] contributions
      | Some _ => contributions
      end in
    c ← match dict_get key rowDict with
        | Some c => Ok c
        | None => Raise (KeyError key)
        end;
    x ← py_float c;
    samples ← match dict_get newKey contributions with
              | Some samples => Ok samples
              | None => Raise (KeyError newKey)
              end;
    Ok (dict_set newKey (samples ++ [x]) contributions)
  else Ok contributions.

Definition contributions_of_row (header : list string) (row : list cell)
    (contributions : dict (list Q)) : result (dict (list Q)) :=
  let rowDict := dict_of_zip header row in
  for_in (dict_keys rowDict) (contributions_of_key rowDict) contributions.

Definition resultsFile_of (trial : Trial) : string :=
  OsPath.join (directory trial) "maxentResults.csv".

(** The body of [for trial in trials:], with the [return contributions]
    that stands at the end of it. *)
Definition compile_trial (tables : gmap string csv_file) (trial : Trial)
    (contributions : dict (list Q))
    : result (flow (dict (list Q)) (dict (list Q))) :=
  let resultsFile := resultsFile_of trial in
  results ← match tables !! resultsFile with
            | Some f => Ok f
            | None => Raise (FileNotFoundError resultsFile)
            end;
  match results with
  | NoHeader => Raise (RuntimeError ("Error reading " +:+ resultsFile))
  | Table header rows =>
      contributions ← for_in rows (contributions_of_row header) contributions;
      Ok (Return contributions)
  end.

(** [None] is the value of a call that falls off the end of the method. *)
Definition _compileContributions (tables : gmap string csv_file)
    (trials : list Trial) : result (option (dict (list Q))) :=
  r ← for_each trials (compile_trial tables) [];
  match r with
  | Return contributions => Ok (Some contributions)
  | Next _ => Ok None
  end.

(** ** The request object *)

Record MmxRequest : Type := {
  _outputDirectory : string;
  _ascDir : string;
  _merraDir : string;
  _trialsDir : string;
  _numTrials : Z;
  _observationFile : ObservationFile;
  _dateRange : list string;
  _collection : string;
  _variables : list string;
  _operation : string
}.

(** ** [getTopTen] *)

(** [sum(samples)] *)
Definition py_sum (samples : list Q) : Q := fold_left Qplus samples 0%Q.

(** [x / n] for an integer [n]: Python raises on a zero divisor. *)
Definition py_truediv (x : Q) (n : nat) : result Q :=
  if (n =? 0)%nat then Raise ZeroDivisionError
  else Ok (x / inject_Z (Z.of_nat n))%Q.

(** The loop [for key in contributions.keys(): ...] of [getTopTen]. *)
Definition average_of_key (contributions : dict (list Q)) (key : string)
    (averages : dict Q) : result (dict Q) :=
  samples ← match dict_get key contributions with
            | Some samples => Ok samples
            | None => Raise (KeyError key)
            end;
  avg ← py_truediv (py_sum samples) (Nat.max (length samples) 1);
  Ok (dict_set key avg averages).

Definition compute_averages (contributions : dict (list Q)) : result (dict Q) :=
  for_in (dict_keys contributions) (average_of_key contributions) [].

Definition Qltb (x y : Q) : bool :=
  match (x ?= y)%Q with
  | Lt => true
  | _ => false
  end.

(** [sorted(l, key=key, reverse=True)]: descending by key, and stable, so
    that items with equal keys stay in the order they had in [l]. *)
Fixpoint insert_desc {A : Type} (key : A → Q) (x : A) (l : list A) : list A :=
  match l with
  | [] => [x]
  | y :: l' =>
      if Qltb (key x) (key y) then y :: insert_desc key x l' else x :: l
  end.

Definition sorted_reverse {A : Type} (key : A → Q) (l : list A) : list A :=
  foldr (insert_desc key) [] l.

(** The ranking: [sortedAvgs], from the contributions. What depends on
    the order of the scores is stated of [Doubles.rank] below. *)
Definition rank (contributions : dict (list Q)) : result (list (string * Q)) :=
  averages ← compute_averages contributions;
  Ok (take 10 (sorted_reverse snd averages)).

Definition topTen_of (self : MmxRequest) (sortedAvgs : list (string * Q))
    : list GeospatialImageFile :=
  map (λ kv, {| fileName := OsPath.join (_merraDir self) (kv.1 +:+ ".nc") |})
      sortedAvgs.

Definition getTopTen (self : MmxRequest) (tables : gmap string csv_file)
    (trials : list Trial) : result (list GeospatialImageFile) :=
  contributions ← _compileContributions tables trials;
  match contributions with
  | None => Raise (AttributeError "'NoneType' object has no attribute 'keys'")
  | Some contributions =>
      sortedAvgs ← rank contributions;
      Ok (topTen_of self sortedAvgs)
  end.

(** ** The ranking of [getTopTen] on doubles

    The order of a ranking depends on how the averages round and compare,
    which exact rationals do not show. This module is the ranking step of
    [getTopTen] once more, lines 139 to 151, on the numbers Python's
    [float] has: IEEE 754 binary64, with its infinities and NaN. A
    contribution is what [float(rowDict[key])] returned, [nan] for the
    text ['nan']. *)

Module Doubles.

(** [sum(samples)]: the samples are added to 0 one after the other, from
    left to right, and each sum is rounded to a double. (From CPython 3.12
    on [sum] carries a correction term along; the result is the same for
    one or two samples.) *)
Definition py_sum (samples : list float) : float :=
  fold_left PrimFloat.add samples 0%float.

(** The double that [/] makes of an integer divisor, here a length: the
    length itself below 2^53, the double nearest to it from there on. *)
Definition float_of_len (n : nat) : float :=
  PrimFloat.of_uint63 (Uint63.of_Z (Z.of_nat n)).

(** [x / n] for an integer [n]: Python raises on a zero divisor. *)
Definition py_truediv (x : float) (n : nat) : result float :=
  if (n =? 0)%nat then Raise ZeroDivisionError
  else Ok (x / float_of_len n)%float.

(** The loop [for key in contributions.keys(): ...] of [getTopTen]; the
    outer [float(...)] returns its argument. *)
Definition average_of_key (contributions : dict (list float)) (key : string)
    (averages : dict float) : result (dict float) :=
  samples ← match dict_get key contributions with
            | Some samples => Ok samples
            | None => Raise (KeyError key)
            end;
  avg ← py_truediv (py_sum samples) (Nat.max (length samples) 1);
  Ok (dict_set key avg averages).

Definition compute_averages (contributions : dict (list float))
    : result (dict float) :=
  for_in (dict_keys contributions) (average_of_key contributions) [].

(** [sorted(l, key=key, reverse=True)], which compares keys with [<]
    alone: an item is put before the first item that it is not less than.
    For keys without NaN this is the one outcome a stable sort in
    descending order has. With a NaN among the keys, [<] is no order and
    what CPython returns depends on the runs its merge sort finds; the
    properties of the order below are stated for keys without NaN. *)
Fixpoint insert_desc {A : Type} (key : A → float) (x : A) (l : list A)
    : list A :=
  match l with
  | [] => [x]
  | y :: l' =>
      if (key x <? key y)%float then y :: insert_desc key x l' else x :: l
  end.

Definition sorted_reverse {A : Type} (key : A → float) (l : list A) : list A :=
  foldr (insert_desc key) [] l.

(** The ranking: [sortedAvgs], from the contributions. *)
Definition rank (contributions : dict (list float))
    : result (list (string * float)) :=
  averages ← compute_averages contributions;
  Ok (take 10 (sorted_reverse snd averages)).

(** *** Vocabulary of the ranking *)

(** The mean of a list of samples that is not empty, as doubles give it:
    the sum from left to right, divided by the number of samples. *)
Definition mean (samples : list float) : float :=
  (py_sum samples / float_of_len (length samples))%float.

(** What the loop of [getTopTen] stores for a key. *)
Definition average (samples : list float) : float :=
  (py_sum samples / float_of_len (Nat.max (length samples) 1))%float.

Definition averages_of (contributions : dict (list float)) : dict float :=
  map (λ kv, (kv.1, average kv.2)) contributions.

(** Every predictor has at least one sample, as in every map that
    [_compileContributions] returns. *)
Definition all_sampled (contributions : dict (list float)) : Prop :=
  Forall (λ kv, kv.2 ≠ []) contributions.

(** No average is NaN. *)
Definition no_nan_average (contributions : dict (list float)) : Prop :=
  Forall (λ kv, is_nan (average kv.2) = false) contributions.

(** Scores in descending order: every item scores at least what each item
    after it scores. *)
Definition descending (l : list (string * float)) : Prop :=
  StronglySorted (λ a b, (b.2 <=? a.2)%float = true) l.

(** The items of [l] that score [v], in the order [l] has them. *)
Definition scoring (v : float) (l : list (string * float))
    : list (string * float) :=
  filter (λ kv, (kv.2 =? v)%float = true) l.

(** [l'] keeps the items of equal score in the order they have in [l]. *)
Definition keeps_ties (l l' : list (string * float)) : Prop :=
  ∀ v, scoring v l' = scoring v l.

(** The predictors that have a sample. *)
Definition sampled (contributions : dict (list float)) : dict (list float) :=
  filter (λ kv : string * list float, kv.2 ≠ [])
         (contributions : list (string * list float)).

(** The ranking as the design document states it: the averages are the
    means of the samples; the ranking is the first ten items of a list of
    all the averages that is in descending order of score and keeps items
    of equal score in the order of the keys; it has at most ten items, and
    when fewer than ten predictors have samples it holds all of them. *)
Definition ranked_as_stated (contributions : dict (list float)) : Prop :=
  ∃ averages sortedAll,
    compute_averages contributions = Ok averages
    ∧ (∀ k samples, (k, samples) ∈ contributions → samples ≠ [] →
         (k, mean samples) ∈ averages)
    ∧ rank contributions = Ok (take 10 sortedAll)
    ∧ sortedAll ≡ₚ averages
    ∧ descending sortedAll
    ∧ keeps_ties averages sortedAll
    ∧ (length (take 10 sortedAll) ≤ 10)%nat
    ∧ ((length (sampled contributions) < 10)%nat →
       ∀ k samples, (k, samples) ∈ contributions → samples ≠ [] →
                    (k, mean samples) ∈ take 10 sortedAll).

End Doubles.

(** ** [getTrialImagesIndexes] *)

(** The state of [random]: a tape of draws and the place reached on it. *)
Record rng : Type := {
  tape : nat → nat;
  cursor : nat
}.

Definition randbelow (n : nat) : st rng nat := λ g,
  (Ok (tape g (cursor g) `mod` n)%nat,
   {| tape := tape g; cursor := S (cursor g) |}).

(** [random.sample(population, k)]: [k] times over, one of the items not
    yet chosen is drawn and taken out of the pool. *)
Fixpoint sample_from (k : nat) (pool : list nat) : st rng (list nat) :=
  match k with
  | O => mret []
  | S k' =>
      j ← randbelow (length pool);
      rest ← sample_from k' (delete j pool);
      mret (nth j pool 0%nat :: rest)
  end.

Definition random_sample (population : list nat) (k : nat) : st rng (list nat) :=
  if (length population <? k)%nat
  then raise (ValueError "Sample larger than population or is negative")
  else sample_from k population.

Definition PREDICTORS_PER_TRIAL : nat := 10.

Definition insufficient_msg (n : nat) : string :=
  "There are " +:+ PyStr.of_nat n +:+ " images and " +:+
  PyStr.of_nat PREDICTORS_PER_TRIAL +:+
  " predictors required for each trial.  " +:+
  "This is insufficient to generate random sets of " +:+
  "predictors for the trials.  Consider broadening the " +:+
  "image request.".

(** The body of [for i in range(1, int(self._numTrials) + 1):]. *)
Definition plan_trial (images : list GeospatialImageFile) (i : nat)
    (indexesInEachTrial : list (list nat)) : st rng (list (list nat)) :=
  indexes ← random_sample (seq 0 (length images - 1)) PREDICTORS_PER_TRIAL;
  mret (indexesInEachTrial ++ [indexes]).

(** [_numTrials] holds the value that [int(self._numTrials)] gives;
    [range(1, T + 1)] has [Z.to_nat T] items. *)
Definition getTrialImagesIndexes (self : MmxRequest)
    (images : list GeospatialImageFile) : st rng (list (list nat)) :=
  if (length images <=? PREDICTORS_PER_TRIAL)%nat
  then raise (RuntimeError (insufficient_msg (length images)))
  else for_in (seq 1 (Z.to_nat (_numTrials self))) (plan_trial images) [].

(** ** The disk

    A path is a key as it is written. The directory that a path lies in is
    not looked up when something is made at the path: [os.mkdir] and
    [shutil.copyfile] are modelled for a place whose directory is there.
    A property that says what a call makes and then raises takes as
    hypotheses that the directory written to is there. *)

Inductive node : Type :=
| Dir
| File (content : string).

Definition os_path_exists (p : string) : st (gmap string node) bool := λ d,
  (Ok (bool_decide (is_Some (d !! p))), d).

Definition os_path_isdir (p : string) : st (gmap string node) bool := λ d,
  (Ok match d !! p with
      | Some Dir => true
      | _ => false
      end, d).

(** [os.mkdir(p)], in a directory that is there. *)
Definition os_mkdir (p : string) : st (gmap string node) unit := λ d,
  match d !! p with
  | Some _ => (Raise (FileExistsError p), d)
  | None => (Ok (), <[p := Dir]> d)
  end.

(** [shutil.copyfile(src, dst)], to a directory that is there: the
    destination is written whether or not it is there already. *)
Definition shutil_copyfile (src dst : string) : st (gmap string node) unit := λ d,
  match d !! src with
  | None => (Raise (FileNotFoundError src), d)
  | Some srcNode =>
      if String.eqb src dst then (Raise (SameFileError src dst), d)
      else match srcNode, d !! dst with
           | Dir, _ => (Raise (IsADirectoryError src), d)
           | File _, Some Dir => (Raise (IsADirectoryError dst), d)
           | File content, _ => (Ok (), <[dst := File content]> d)
           end
  end.

(** [if not os.path.exists(p): os.mkdir(p)] *)
Definition mkdir_if_absent (p : string) : st (gmap string node) unit :=
  e ← os_path_exists p;
  if negb e then os_mkdir p else mret ().

(** ** [__init__] *)

(** The first [raise] is [raise RuntimeError(str(d)) + ' does not exist.']:
    the sum of an exception and a string is what is raised, and forming it
    is a [TypeError]. *)
Definition __init__ (observationFile : ObservationFile)
    (dateRange : list string) (collection : string) (variables : list string)
    (operation : string) (numTrials : Z) (outputDirectory : string)
    : st (gmap string node) MmxRequest :=
  e ← os_path_exists outputDirectory;
  if negb e then
    raise (TypeError
             "unsupported operand type(s) for +: 'RuntimeError' and 'str'")
  else
    isd ← os_path_isdir outputDirectory;
    if negb isd then
      raise (RuntimeError (outputDirectory +:+ " must be a directory."))
    else
      let self := {|
        _outputDirectory := outputDirectory;
        _ascDir := OsPath.join outputDirectory "asc";
        _merraDir := OsPath.join outputDirectory "merra";
        _trialsDir := OsPath.join outputDirectory "trials";
        _numTrials := numTrials;
        _observationFile := observationFile;
        _dateRange := dateRange;
        _collection := collection;
        _variables := variables;
        _operation := operation
      |} in
      mkdir_if_absent (_ascDir self);;
      mkdir_if_absent (_merraDir self);;
      mkdir_if_absent (_trialsDir self);;
      mret self.

(** ** [prepareOneTrial] *)

(** A trial number is an integer, or the string ['final']. *)
Inductive trial_num : Type :=
| TrialInt (n : nat)
| TrialStr (s : string).

Definition py_str (t : trial_num) : string :=
  match t with
  | TrialInt n => PyStr.of_nat n
  | TrialStr s => s
  end.

(** [[images[i] for i in trialImageIndexes]] *)
Fixpoint select_images (images : list GeospatialImageFile)
    (trialImageIndexes : list nat) : result (list GeospatialImageFile) :=
  match trialImageIndexes with
  | [] => Ok []
  | i :: rest =>
      match images !! i with
      | None => Raise (IndexError i)
      | Some img => imgs ← select_images images rest; Ok (img :: imgs)
      end
  end.

Definition stage_predictor (trialAscDir : string) (ascGif : GeospatialImageFile)
    (_ : unit) : st (gmap string node) unit :=
  let trialAscGif := OsPath.join trialAscDir (OsPath.basename (fileName ascGif)) in
  e ← os_path_exists trialAscGif;
  if negb e then shutil_copyfile (fileName ascGif) trialAscGif else mret ().

Definition prepareOneTrial (self : MmxRequest)
    (images : list GeospatialImageFile) (trialImageIndexes : list nat)
    (trialNum : trial_num) : st (gmap string node) Trial :=
  let TRIAL_NAME := "trial-" +:+ py_str trialNum in
  let TRIAL_DIR := OsPath.join (_trialsDir self) TRIAL_NAME in
  mkdir_if_absent TRIAL_DIR;;
  (* [fileName()] of the observation file is its [_filePath] *)
  let obsBaseName := OsPath.basename (_filePath (_observationFile self)) in
  let trialObsPath := OsPath.join TRIAL_DIR obsBaseName in
  shutil_copyfile (_filePath (_observationFile self)) trialObsPath;;
  let trialObs := {| _filePath := trialObsPath;
                     _species := _species (_observationFile self) |} in
  trialPredictors ← lift (select_images images trialImageIndexes);
  let trialAscDir := OsPath.join TRIAL_DIR "asc" in
  mkdir_if_absent trialAscDir;;
  for_in trialPredictors (stage_predictor trialAscDir) ();;
  mret {| directory := TRIAL_DIR;
          images := trialPredictors;
          obsFile := trialObs |}.

(** ** [run], from the ranking on

    [topTen = self.getTopTen(trials)] and the staging of the final trial
    with [range(0, len(topTen) - 1)]. What comes before (fetching,
    preparing, the planned trials and their runs) and the final MaxEnt run
    are calls into other packages. *)
Definition run_final (self : MmxRequest) (tables : gmap string csv_file)
    (trials : list Trial) : st (gmap string node) Trial :=
  topTen ← lift (getTopTen self tables trials);
  prepareOneTrial self topTen (seq 0 (length topTen - 1)) (TrialStr "final").

(** ** [run]: staging the planned trials

    [trialNum = 0] and [trials = []], then the loop over
    [listOfIndexesInEachTrial]; the state of the loop is the pair of the
    two variables. *)
Definition stage_planned_trial (self : MmxRequest)
    (images : list GeospatialImageFile) (trialImageIndexes : list nat)
    (state : nat * list Trial) : st (gmap string node) (nat * list Trial) :=
  let trialNum := state.1 in
  let trials := state.2 in
  trial ← prepareOneTrial self images trialImageIndexes (TrialInt (trialNum + 1));
  mret ((trialNum + 1)%nat, trials ++ [trial]).

Definition run_prepare_trials (self : MmxRequest)
    (images : list GeospatialImageFile)
    (listOfIndexesInEachTrial : list (list nat))
    : st (gmap string node) (list Trial) :=
  state ← for_in listOfIndexesInEachTrial (stage_planned_trial self images)
                 (0%nat, []);
  mret state.2.

(** ** [MmxRequestCelery]

    The subclass of [model/MmxRequestCelery.py]. [MAX_ENT_JAR] is a constant
    of the MaxEnt package, taken as a parameter. *)
Module MmxRequestCelery.

(** [prepareOneTrial]: the staging of the base class, then the copy of
    [maxent.jar] into the trial directory. *)
Definition prepareOneTrial (MAX_ENT_JAR : string) (self : MmxRequest)
    (images : list GeospatialImageFile) (trialImageIndexes : list nat)
    (trialNum : trial_num) : st (gmap string node) Trial :=
  trial ← prepareOneTrial self images trialImageIndexes trialNum;
  shutil_copyfile MAX_ENT_JAR (directory trial +:+ "/maxent.jar");;
  mret trial.

(** The path of the jar that [_runOneTrial] hands to [runMaxEntJar]. *)
Definition jar_of_runOneTrial (trial : Trial) : string :=
  OsPath.join (directory trial) "maxent.jar".

End MmxRequestCelery.

(** ** Vocabulary of the properties *)

(** What the loop of [getTopTen] stores for a key. *)
Definition average (samples : list Q) : Q :=
  (py_sum samples / inject_Z (Z.of_nat (Nat.max (length samples) 1)))%Q.

(** A set of indexes as a trial needs it: as many as there are predictors
    in a trial, all different, all below [bound]. *)
Definition index_set (bound : nat) (s : list nat) : Prop :=
  length s = PREDICTORS_PER_TRIAL ∧ NoDup s ∧ ∀ i, i ∈ s → (i < bound)%nat.

(** The statement that the predictors of the final subset are images of
    the pool of prepared images. *)
Definition final_subset_from_pool (self : MmxRequest)
    (pool : list GeospatialImageFile) (tables : gmap string csv_file)
    (trials : list Trial) : Prop :=
  ∀ topTen, getTopTen self tables trials = Ok topTen →
            ∀ img, img ∈ topTen → img ∈ pool.

(** From [d] to [d'] nothing is removed, and what was there is as it was,
    but for the paths in [W]. *)
Definition kept_outside (W : string → Prop) (d d' : gmap string node) : Prop :=
  ∀ p n, d !! p = Some n → is_Some (d' !! p) ∧ (¬ W p → d' !! p = Some n).

(** A computation that removes nothing and rewrites paths of [W] only. *)
Definition keeps {A : Type} (W : string → Prop)
    (m : st (gmap string node) A) : Prop :=
  ∀ d, kept_outside W d (m d).2.

(** The path of the copy of the observation file in a trial directory. *)
Definition trialObsPath_of (self : MmxRequest) (trialNum : trial_num) : string :=
  OsPath.join (OsPath.join (_trialsDir self) ("trial-" +:+ py_str trialNum))
              (OsPath.basename (_filePath (_observationFile self))).

(** The directory of a trial. *)
Definition trial_directory_of (self : MmxRequest) (trialNum : trial_num)
    : string :=
  OsPath.join (_trialsDir self) ("trial-" +:+ py_str trialNum).

(** The name of a column of a result table that holds the marker after
    the name of a predictor and a space. *)
Definition marked_column (name rest : string) : string :=
  name +:+ " " +:+ CONTRIB_KWD +:+ rest.

(** The contributions of one predictor with the samples [qs]: no entry
    before the first sample. *)
Definition contributions_of_samples (name : string) (qs : list Q)
    : dict (list Q) :=
  match qs with
  | [] => []
  | _ => [(name, qs)]
  end.

(** ** Concrete requests, disks and result tables *)

Module Scenario.

Definition obs : ObservationFile :=
  {| _filePath := "in/ebd.csv"; _species := "Cassin's Sparrow" |}.

Definition self : MmxRequest := {|
  _outputDirectory := "out";
  _ascDir := OsPath.join "out" "asc";
  _merraDir := OsPath.join "out" "merra";
  _trialsDir := OsPath.join "out" "trials";
  _numTrials := 2;
  _observationFile := obs;
  _dateRange := ["2013-02-03"; "2013-12-31"];
  _collection := "m2t1nxslv";
  _variables := ["QV2M"; "TS"];
  _operation := "avg"
|}.

Definition asc (name : string) : GeospatialImageFile :=
  {| fileName := "out/asc/" +:+ name +:+ ".asc" |}.

Definition trial (n : nat) (imgs : list GeospatialImageFile) : Trial := {|
  directory := "out/trials/trial-" +:+ PyStr.of_nat n;
  obsFile := {| _filePath := "out/trials/trial-" +:+ PyStr.of_nat n +:+ "/ebd.csv";
                _species := "Cassin's Sparrow" |};
  images := imgs
|}.

(** A result table with the one matching column of predictor [predA]. *)
Definition predA_table (v : Q) : csv_file :=
  Table ["Species"; "predA permutation importance"]
        [[TextCell "Cassin's Sparrow"; FloatCell v]].

(** Two trials, with tables [0.2] and [0.8]. *)
Definition two_tables : gmap string csv_file :=
  <["out/trials/trial-1/maxentResults.csv" := predA_table 0.2]>
  (<["out/trials/trial-2/maxentResults.csv" := predA_table 0.8]> ∅).

(** A pool of [n] prepared images. *)
Definition pool (n : nat) : list GeospatialImageFile :=
  map (λ i, asc ("pred" +:+ PyStr.of_nat i)) (seq 0 n).

(** Contributions of three predictors, two of them with the same mean. *)
Definition contributions : dict (list float) :=
  [("predA", [0.25; 0.75]); ("predB", [0.5]); ("predC", [1])]%float.

(** Two predictors whose samples, as a table writes them, have the same
    mean, 0.15. *)
Definition rounded : dict (list float) :=
  [("predB", [0.15; 0.15]); ("predA", [0.1; 0.2])]%float.

(** Eleven predictors with one sample each, in the order of the keys; the
    sample of [p9] is what [float('nan')] returns. *)
Definition with_nan : dict (list float) :=
  [("p0", [9]); ("p1", [8]); ("p2", [7]); ("p3", [6]); ("p4", [5]);
   ("p5", [4]); ("p6", [3]); ("p7", [2]); ("p8", [1]); ("p9", [nan]);
   ("p10", [10])]%float.

(** A tape of draws. *)
Definition gen : rng := {| tape := λ i, (7 * i + 3)%nat; cursor := 0 |}.

Definition two_trials : list Trial :=
  [trial 1 [asc "predA"]; trial 2 [asc "predA"]].

(** Two trials, the table of the second is missing. *)
Definition second_missing : gmap string csv_file :=
  <["out/trials/trial-1/maxentResults.csv" := predA_table 0.2]> ∅.

(** Two trials, the table of the second is empty. *)
Definition second_empty : gmap string csv_file :=
  <["out/trials/trial-1/maxentResults.csv" := predA_table 0.2]>
  (<["out/trials/trial-2/maxentResults.csv" := NoHeader]> ∅).

(** One executed trial whose table scores [pred0] with 0.8 and [pred1]
    with 0.2. *)
Definition ranked_table : csv_file :=
  Table ["Species"; "pred0 contribution"; "pred0 permutation importance";
         "pred1 contribution"; "pred1 permutation importance"]
        [[TextCell "Cassin's Sparrow"; FloatCell 70; FloatCell 0.8;
          FloatCell 30; FloatCell 0.2]].

Definition ranked_tables : gmap string csv_file :=
  <["out/trials/trial-1/maxentResults.csv" := ranked_table]> ∅.

Definition ranked_trials : list Trial := [trial 1 (take 10 (pool 11))].

Definition merra (name : string) : GeospatialImageFile :=
  {| fileName := "out/merra/" +:+ name +:+ ".nc" |}.

(** The disk after the trials have run. *)
Definition disk : gmap string node :=
  <["in/ebd.csv" := File "observations"]>
  (<["out" := Dir]>
  (<["out/asc" := Dir]>
  (<["out/merra" := Dir]>
  (<["out/trials" := Dir]>
  (<["out/merra/pred0.nc" := File "raw raster 0"]>
  (<["out/merra/pred1.nc" := File "raw raster 1"]>
  (<["out/asc/pred0.asc" := File "prepared raster 0"]>
  (<["out/asc/pred1.asc" := File "prepared raster 1"]> ∅)))))))).

(** A disk on which trial 1 was staged from an older observation file. *)
Definition restaged_disk : gmap string node :=
  <["out/trials/trial-1" := Dir]>
  (<["out/trials/trial-1/ebd.csv" := File "older observations"]> disk).

(** One trial whose table has three rows. *)
Definition three_rows : gmap string csv_file :=
  <["out/trials/trial-1/maxentResults.csv" :=
      Table ["Species"; "predA permutation importance"]
            [[TextCell "a"; FloatCell 0.2]; [TextCell "b"; FloatCell 0.8];
             [TextCell "c"; FloatCell 0.5]]]> ∅.

(** One trial whose table has a text in the marked column of its second
    row. *)
Definition text_row : gmap string csv_file :=
  <["out/trials/trial-1/maxentResults.csv" :=
      Table ["Species"; "predA permutation importance"]
            [[TextCell "a"; FloatCell 0.2]; [TextCell "b"; TextCell "n/a"]]]> ∅.

(** Twelve predictors, [p<i>] with the one sample [i]. *)
Definition twelve : dict (list float) :=
  map (λ i, ("p" +:+ PyStr.of_nat i, [Doubles.float_of_len i])) (seq 0 12).

(** Their ranking: the ten of highest score, [p11] down to [p2]. *)
Definition twelve_ranked : list (string * float) :=
  map (λ i, ("p" +:+ PyStr.of_nat i, Doubles.float_of_len i)) (rev (seq 2 10)).

(** The request with no trial asked for. *)
Definition no_trials : MmxRequest := {|
  _outputDirectory := "out";
  _ascDir := OsPath.join "out" "asc";
  _merraDir := OsPath.join "out" "merra";
  _trialsDir := OsPath.join "out" "trials";
  _numTrials := 0;
  _observationFile := obs;
  _dateRange := ["2013-02-03"; "2013-12-31"];
  _collection := "m2t1nxslv";
  _variables := ["QV2M"; "TS"];
  _operation := "avg"
|}.

(** A disk with the observation file and an empty output directory. *)
Definition bare_disk : gmap string node :=
  <["in/ebd.csv" := File "observations"]> (<["out" := Dir]> ∅).

(** [disk] with the MaxEnt jar. *)
Definition jar_disk : gmap string node :=
  <["lib/maxent.jar" := File "maxent 3.4"]> disk.

(** [disk] without the observation file. *)
Definition lost_disk : gmap string node := delete "in/ebd.csv" disk.

End Scenario.

(** * Properties *)

(** ** The monads *)

Lemma result_bind_Ok {A B : Type} (m : result A) (k : A → result B) (b : B) :
  (m ≫= k) = Ok b ↔ ∃ a, m = Ok a ∧ k a = Ok b.
Proof.
  destruct m as [a|e]; simpl.
  - split; [eauto | intros (a' & [= <-] & ?); done].
  - split; [done | intros (? & ? & ?); done].
Qed.

Lemma for_in_invariant {A S : Type} (P : S → Prop) (xs : list A)
    (body : A → S → result S) (s s' : S) :
  (∀ x t t', P t → body x t = Ok t' → P t') →
  P s → for_in xs body s = Ok s' → P s'.
Proof.
  intros Hbody. revert s. induction xs as [|x xs IH]; intros s Hs Hrun.
  - by injection Hrun as <-.
  - simpl in Hrun. apply result_bind_Ok in Hrun as (t & Hx & Hxs).
    eapply IH; [|done]. by eapply Hbody.
Qed.

Lemma for_each_returns_at_once {A S R : Type} (x : A) (xs : list A)
    (body : A → S → result (flow S R)) (s : S) :
  (∀ s', body x s ≠ Ok (Next s')) →
  for_each (x :: xs) body s = for_each [x] body s.
Proof.
  intros Hret. simpl. destruct (body x s) as [[s'|r]|e]; try done.
  by destruct (Hret s').
Qed.

Lemma st_bind_Ok {St A B : Type} (m : st St A) (k : A → st St B)
    (s s' : St) (a : A) :
  m s = (Ok a, s') → (m ≫= k) s = k a s'.
Proof. intros Hm. unfold mbind, st_bind. by rewrite Hm. Qed.

Lemma st_bind_inv_Ok {St A B : Type} (m : st St A) (k : A → st St B)
    (s s' : St) (b : B) :
  (m ≫= k) s = (Ok b, s') → ∃ a s1, m s = (Ok a, s1) ∧ k a s1 = (Ok b, s').
Proof.
  unfold mbind, st_bind. destruct (m s) as [[a|e] s1]; [|done].
  intros Hk. by exists a, s1.
Qed.

(** ** Dictionaries *)

Lemma dict_get_In {V : Type} (d : dict V) (k : string) (v : V) :
  NoDup (dict_keys d) → (k, v) ∈ d → dict_get k d = Some v.
Proof.
  unfold dict_keys. induction d as [|[k' v'] d IH]; intros Hnd Hin.
  - by apply elem_of_nil in Hin.
  - apply NoDup_cons in Hnd as [Hk' Hnd]. simpl.
    apply elem_of_cons in Hin as [[= -> ->]|Hin].
    + by rewrite String.eqb_refl.
    + destruct (String.eqb_spec k k') as [->|_]; [|by apply IH].
      destruct Hk'. apply list_elem_of_fmap. by exists (k', v).
Qed.

Lemma dict_get_key {V : Type} (d : dict V) (k : string) :
  k ∈ dict_keys d → is_Some (dict_get k d).
Proof.
  unfold dict_keys. induction d as [|[k' v'] d IH]; intros Hin.
  - by apply elem_of_nil in Hin.
  - simpl. destruct (String.eqb_spec k k') as [->|Hne]; [by eexists|].
    apply IH. simpl in Hin. apply elem_of_cons in Hin as [?|?]; done.
Qed.

Lemma dict_set_fresh {V : Type} (d : dict V) (k : string) (v : V) :
  k ∉ dict_keys d → dict_set k v d = d ++ [(k, v)].
Proof.
  unfold dict_keys. induction d as [|[k' v'] d IH]; intros Hk; [done|].
  simpl in *. apply not_elem_of_cons in Hk as [Hne Hk].
  destruct (String.eqb_spec k k') as [->|_]; [done|]. by rewrite IH.
Qed.

Lemma dict_set_keys {V : Type} (d : dict V) (k : string) (v : V) :
  k ∈ dict_keys d → dict_keys (dict_set k v d) = dict_keys d.
Proof.
  unfold dict_keys. induction d as [|[k' v'] d IH]; intros Hk.
  - by apply elem_of_nil in Hk.
  - simpl in *. destruct (String.eqb_spec k k') as [->|Hne]; [done|].
    simpl. f_equal. apply IH. apply elem_of_cons in Hk as [?|?]; done.
Qed.

Lemma dict_set_NoDup {V : Type} (d : dict V) (k : string) (v : V) :
  NoDup (dict_keys d) → NoDup (dict_keys (dict_set k v d)).
Proof.
  intros Hnd. destruct (decide (k ∈ dict_keys d)) as [Hin|Hout].
  - by rewrite dict_set_keys.
  - rewrite dict_set_fresh by done. unfold dict_keys in *.
    rewrite fmap_app. apply NoDup_app. split_and!; [done| |].
    + intros x Hx [->|[]%elem_of_nil]%elem_of_cons. done.
    + apply NoDup_singleton.
Qed.

(** ** Aggregation: [_compileContributions] *)

Lemma compile_trial_never_continues tables trial contributions s' :
  compile_trial tables trial contributions ≠ Ok (Next s').
Proof.
  unfold compile_trial. destruct (tables !! resultsFile_of trial) as [[|h rows]|];
    simpl; try done.
  by destruct (for_in rows _ _).
Qed.

(** The trials after the first are never looked at. *)
Lemma compileContributions_first_only tables trial rest :
  _compileContributions tables (trial :: rest)
  = _compileContributions tables [trial].
Proof.
  unfold _compileContributions. f_equal.
  apply for_each_returns_at_once. intros s'.
  apply compile_trial_never_continues.
Qed.

(** A missing table of the first trial is reported by its path. *)
Lemma compileContributions_first_missing tables trial rest :
  tables !! resultsFile_of trial = None →
  _compileContributions tables (trial :: rest)
  = Raise (FileNotFoundError (resultsFile_of trial)).
Proof.
  intros Hnone. unfold _compileContributions. simpl.
  unfold compile_trial. by rewrite Hnone.
Qed.

(** A table of the first trial without a header is reported by its path. *)
Lemma compileContributions_first_unreadable tables trial rest :
  tables !! resultsFile_of trial = Some NoHeader →
  _compileContributions tables (trial :: rest)
  = Raise (RuntimeError ("Error reading " +:+ resultsFile_of trial)).
Proof.
  intros Hnone. unfold _compileContributions. simpl.
  unfold compile_trial. by rewrite Hnone.
Qed.

Lemma contributions_of_key_NoDup rowDict key contributions contributions' :
  NoDup (dict_keys contributions) →
  contributions_of_key rowDict key contributions = Ok contributions' →
  NoDup (dict_keys contributions').
Proof.
  intros Hnd. unfold contributions_of_key.
  destruct (PyStr.contains CONTRIB_KWD key); [|by intros [= <-]].
  intros Hrun.
  apply result_bind_Ok in Hrun as (c & _ & Hrun).
  apply result_bind_Ok in Hrun as (x & _ & Hrun).
  apply result_bind_Ok in Hrun as (samples & _ & [= <-]).
  apply dict_set_NoDup. destruct (dict_get _ contributions); [done|].
  by apply dict_set_NoDup.
Qed.

Lemma compileContributions_NoDup tables trials contributions :
  _compileContributions tables trials = Ok (Some contributions) →
  NoDup (dict_keys contributions).
Proof.
  unfold _compileContributions. destruct trials as [|trial trials].
  { by intros [=]. }
  rewrite for_each_returns_at_once
    by (intros s'; apply compile_trial_never_continues).
  simpl. unfold compile_trial.
  destruct (tables !! resultsFile_of trial) as [[|header rows]|]; try done.
  simpl. destruct (for_in rows _ _) as [c|] eqn:Hrows; [|done].
  simpl. intros [= <-].
  apply (for_in_invariant (λ c, NoDup (dict_keys c)) rows
           (contributions_of_row header) [] c); [|apply NoDup_nil_2|done].
  intros row t t' Ht Hrow. unfold contributions_of_row in Hrow.
  apply (for_in_invariant (λ c, NoDup (dict_keys c))
           (dict_keys (dict_of_zip header row))
           (contributions_of_key (dict_of_zip header row)) t t');
    [|exact Ht|exact Hrow].
  intros key u u' Hu Hkey. by eapply contributions_of_key_NoDup.
Qed.

(** C1 (as the code behaves): with two trials whose tables hold the single
    matching column of [predA] with the values 0.2 and 0.8, the samples of
    [predA] are [0.2] alone, and its mean is 0.2, not 0.5: the method
    returns at the end of the first pass through its loop over the
    trials. *)
Theorem compileContributions_two_trials_keeps_first :
  _compileContributions Scenario.two_tables Scenario.two_trials
    = Ok (Some [("predA", [0.2%Q])])
  ∧ rank [("predA", [0.2%Q])] = Ok [("predA", 0.2 / 1)%Q]
  ∧ ¬ (0.2 / 1 == 0.5)%Q.
Proof.
  split; [by vm_compute|]. split; [by vm_compute|].
  by vm_compute.
Qed.

(** C8 (as the code behaves): with the table of the second trial missing,
    or empty, aggregation raises nothing and a ranking is produced from the
    first trial. *)
Theorem getTopTen_ignores_bad_second_table :
  getTopTen Scenario.self Scenario.second_missing Scenario.two_trials
    = Ok [{| fileName := "out/merra/predA.nc" |}]
  ∧ getTopTen Scenario.self Scenario.second_empty Scenario.two_trials
    = Ok [{| fileName := "out/merra/predA.nc" |}].
Proof. split; by vm_compute. Qed.

(** ** Ranking: the averages *)

Lemma max_length_nonzero {A : Type} (l : list A) : Nat.max (length l) 1 ≠ 0%nat.
Proof. lia. Qed.

Lemma py_truediv_max (x : Q) (samples : list Q) :
  py_truediv x (Nat.max (length samples) 1)
  = Ok (x / inject_Z (Z.of_nat (Nat.max (length samples) 1)))%Q.
Proof.
  unfold py_truediv.
  by destruct (Nat.eqb_spec (Nat.max (length samples) 1) 0) as [?%max_length_nonzero|_].
Qed.

Lemma average_of_key_Ok contributions key samples averages :
  dict_get key contributions = Some samples →
  average_of_key contributions key averages
  = Ok (dict_set key (average samples) averages).
Proof.
  intros Hget. unfold average_of_key. rewrite Hget. simpl.
  by rewrite py_truediv_max.
Qed.

Lemma averages_loop_total contributions keys averages :
  keys ⊆ dict_keys contributions →
  ∃ averages', for_in keys (average_of_key contributions) averages = Ok averages'.
Proof.
  revert averages. induction keys as [|k keys IH]; intros averages Hsub.
  - by eexists.
  - destruct (dict_get_key contributions k) as [samples Hget]; [set_solver|].
    simpl. rewrite (average_of_key_Ok _ _ _ _ Hget). simpl.
    apply IH. set_solver.
Qed.

(** C10: computing the averages raises nothing, whatever the contributions
    are: every division is by [max(len(samples), 1)], which is never zero,
    and a predictor with no sample gets the average 0. *)
Theorem compute_averages_total (contributions : dict (list Q)) :
  (∀ (x : Q) (samples : list Q),
      Nat.max (length samples) 1 ≠ 0%nat ∧
      py_truediv x (Nat.max (length samples) 1)
      = Ok (x / inject_Z (Z.of_nat (Nat.max (length samples) 1)))%Q)
  ∧ (∃ averages, compute_averages contributions = Ok averages)
  ∧ (∀ key, compute_averages [(key, [])] = Ok [(key, 0 / 1)%Q]).
Proof.
  split; [|split].
  - intros x samples. split; [apply max_length_nonzero | apply py_truediv_max].
  - by apply averages_loop_total.
  - intros key. unfold compute_averages. simpl.
    unfold average_of_key. simpl. by rewrite String.eqb_refl.
Qed.

(** ** Ranking: the order of doubles *)

Lemma SFcompare_swap (x y : spec_float) (c : comparison) :
  SFcompare x y = Some c → SFcompare y x = Some (CompOpp c).
Proof.
  destruct x as [sx|sx| |sx mx ex], y as [sy|sy| |sy my ey]; simpl;
    try discriminate; try (intros [= <-]; by repeat case_match).
  intros [= <-]. f_equal.
  fold (Pos.compare mx my). fold (Pos.compare my mx).
  destruct sx, sy; simpl; try done;
    destruct (Z.compare_spec ex ey), (Z.compare_spec ey ex);
    simpl; try done; try lia;
    destruct (Pos.compare_spec mx my), (Pos.compare_spec my mx);
    simpl; try done; try lia.
Qed.

Lemma SFleb_trans (x y z : spec_float) :
  SFleb x y = true → SFleb y z = true → SFleb x z = true.
Proof.
  unfold SFleb.
  destruct x as [sx|sx| |sx mx ex], y as [sy|sy| |sy my ey],
           z as [sz|sz| |sz mz ez]; simpl; try done;
    try (by destruct sx); try (by destruct sy); try (by destruct sz);
    try (by destruct sx, sy); try (by destruct sy, sz); try (by destruct sx, sz);
    try (by destruct sx, sy, sz).
  fold (Pos.compare mx my). fold (Pos.compare my mz). fold (Pos.compare mx mz).
  destruct sx, sy, sz; simpl; try done;
    destruct (Z.compare_spec ex ey), (Z.compare_spec ey ez),
             (Z.compare_spec ex ez); simpl; try done; try lia; subst;
    destruct (Pos.compare_spec mx my), (Pos.compare_spec my mz),
             (Pos.compare_spec mx mz); simpl; try done; try lia.
Qed.

(** Two doubles that are not NaN compare. *)
Lemma SFcompare_no_nan (x y : float) :
  is_nan x = false → is_nan y = false →
  ∃ c, SFcompare (Prim2SF x) (Prim2SF y) = Some c.
Proof.
  unfold is_nan. rewrite !FloatAxioms.eqb_spec. unfold SFeqb.
  destruct (Prim2SF x) as [sx|sx| |sx mx ex], (Prim2SF y) as [sy|sy| |sy my ey];
    simpl; try done; intros _ _; by eexists.
Qed.

Lemma ltb_false_leb (x y : float) :
  is_nan x = false → is_nan y = false →
  (x <? y)%float = false → (y <=? x)%float = true.
Proof.
  intros Hx Hy. destruct (SFcompare_no_nan x y Hx Hy) as [c Hc].
  rewrite ltb_spec, leb_spec. unfold SFltb, SFleb.
  rewrite Hc, (SFcompare_swap _ _ _ Hc). by destruct c.
Qed.

Lemma ltb_leb (x y : float) :
  (x <? y)%float = true → (x <=? y)%float = true.
Proof.
  rewrite ltb_spec, leb_spec. unfold SFltb, SFleb.
  by destruct (SFcompare (Prim2SF x) (Prim2SF y)) as [[]|].
Qed.

Lemma leb_trans (x y z : float) :
  (x <=? y)%float = true → (y <=? z)%float = true → (x <=? z)%float = true.
Proof. rewrite !leb_spec. apply SFleb_trans. Qed.

(** Of two doubles equal to a third, neither is less than the other. *)
Lemma eqb_not_ltb (x y v : float) :
  (x =? v)%float = true → (y =? v)%float = true → (x <? y)%float = false.
Proof.
  rewrite !FloatAxioms.eqb_spec, ltb_spec. unfold SFeqb, SFltb.
  destruct (SFcompare (Prim2SF x) (Prim2SF v)) as [[]|] eqn:Hxv; try done.
  destruct (SFcompare (Prim2SF y) (Prim2SF v)) as [[]|] eqn:Hyv; try done.
  intros _ _.
  assert (SFleb (Prim2SF y) (Prim2SF x) = true) as Hle.
  { apply SFleb_trans with (Prim2SF v); unfold SFleb.
    - by rewrite Hyv.
    - by rewrite (SFcompare_swap _ _ _ Hxv). }
  unfold SFleb in Hle.
  destruct (SFcompare (Prim2SF y) (Prim2SF x)) as [c|] eqn:Hyx; [|done].
  rewrite (SFcompare_swap _ _ _ Hyx). by destruct c.
Qed.

(** ** Ranking: the sort *)

Section Sorting.
Context {A : Type} (key : A → float).

Lemma insert_desc_Permutation (x : A) (l : list A) :
  Doubles.insert_desc key x l ≡ₚ x :: l.
Proof.
  induction l as [|y l IH]; [done|]. simpl.
  destruct (key x <? key y)%float; [|done].
  rewrite IH. apply Permutation_swap.
Qed.

Lemma sorted_reverse_Permutation (l : list A) :
  Doubles.sorted_reverse key l ≡ₚ l.
Proof.
  induction l as [|x l IH]; [done|]. simpl.
  by rewrite insert_desc_Permutation, IH.
Qed.

Lemma insert_desc_sorted (x : A) (l : list A) :
  is_nan (key x) = false →
  Forall (λ a, is_nan (key a) = false) l →
  StronglySorted (λ a b, (key b <=? key a)%float = true) l →
  StronglySorted (λ a b, (key b <=? key a)%float = true)
                 (Doubles.insert_desc key x l).
Proof.
  intros Hx Hl. induction 1 as [|y l Hsorted IH Hall]; simpl.
  - by repeat constructor.
  - apply Forall_cons in Hl as [Hy Hl].
    destruct (key x <? key y)%float eqn:Hcmp.
    + constructor; [by apply IH|].
      rewrite insert_desc_Permutation. constructor; [|done].
      by apply ltb_leb.
    + apply ltb_false_leb in Hcmp; [|done|done].
      constructor; [by constructor|].
      constructor; [done|].
      eapply Forall_impl; [exact Hall|]. simpl. intros z Hz.
      by apply leb_trans with (key y).
Qed.

Lemma sorted_reverse_sorted (l : list A) :
  Forall (λ a, is_nan (key a) = false) l →
  StronglySorted (λ a b, (key b <=? key a)%float = true)
                 (Doubles.sorted_reverse key l).
Proof.
  induction 1 as [|x l Hx Hl IH]; simpl; [constructor|].
  apply insert_desc_sorted; [done| |done].
  by rewrite sorted_reverse_Permutation.
Qed.

(** An item moves only past items that score strictly more, so it never
    overtakes one of its own score. *)
Lemma insert_desc_ties (v : float) (x : A) (l : list A) :
  filter (λ a, (key a =? v)%float = true) (Doubles.insert_desc key x l)
  = filter (λ a, (key a =? v)%float = true) (x :: l).
Proof.
  induction l as [|y l IH]; [done|]. simpl.
  destruct (key x <? key y)%float eqn:Hcmp; [|done].
  rewrite (filter_cons _ y), IH, !filter_cons.
  destruct (decide ((key x =? v)%float = true)) as [Hx|Hx]; [|done].
  destruct (decide ((key y =? v)%float = true)) as [Hy|Hy]; [|done].
  by rewrite (eqb_not_ltb _ _ _ Hx Hy) in Hcmp.
Qed.

Lemma sorted_reverse_ties (v : float) (l : list A) :
  filter (λ a, (key a =? v)%float = true) (Doubles.sorted_reverse key l)
  = filter (λ a, (key a =? v)%float = true) l.
Proof.
  induction l as [|x l IH]; [done|]. simpl.
  by rewrite insert_desc_ties, !filter_cons, IH.
Qed.

End Sorting.

(** In a list in order under [R], of two different items one is related
    to the other. *)
Lemma StronglySorted_related {A : Type} (R : A → A → Prop) (l : list A)
    (x y : A) :
  StronglySorted R l → x ∈ l → y ∈ l → x ≠ y → R x y ∨ R y x.
Proof.
  induction 1 as [|z l Hsorted IH Hall]; [by intros ?%elem_of_nil|].
  rewrite Forall_forall in Hall.
  intros [->|Hx]%elem_of_cons [->|Hy]%elem_of_cons Hne; auto.
  done.
Qed.

(** ** Ranking: the averages of doubles *)

(** The divisor is the length rounded to the nearest double, which is
    what Python makes of an integer that it divides a float by. *)
Lemma float_of_len_spec (n : nat) :
  (Z.of_nat n < 2 ^ 63)%Z →
  Prim2SF (Doubles.float_of_len n)
  = binary_normalize prec emax (Z.of_nat n) 0 false.
Proof.
  intros Hn. unfold Doubles.float_of_len.
  rewrite of_uint63_spec, Uint63.of_Z_spec. f_equal.
  apply Z.mod_small. change Uint63.wB with (2 ^ 63)%Z. lia.
Qed.

Lemma doubles_truediv_max (x : float) (samples : list float) :
  Doubles.py_truediv x (Nat.max (length samples) 1)
  = Ok (x / Doubles.float_of_len (Nat.max (length samples) 1))%float.
Proof.
  unfold Doubles.py_truediv.
  by destruct (Nat.eqb_spec (Nat.max (length samples) 1) 0)
    as [?%max_length_nonzero|_].
Qed.

Lemma doubles_average_of_key contributions key samples averages :
  dict_get key contributions = Some samples →
  Doubles.average_of_key contributions key averages
  = Ok (dict_set key (Doubles.average samples) averages).
Proof.
  intros Hget. unfold Doubles.average_of_key. rewrite Hget. simpl.
  by rewrite doubles_truediv_max.
Qed.

Lemma doubles_averages_keys (d : dict (list float)) :
  dict_keys (Doubles.averages_of d) = dict_keys d.
Proof.
  unfold dict_keys, Doubles.averages_of. induction d as [|[k v] d IH]; [done|].
  simpl. by f_equal.
Qed.

Lemma doubles_averages_loop contributions done todo :
  NoDup (dict_keys (done ++ todo)) →
  (∀ k samples, (k, samples) ∈ todo → dict_get k contributions = Some samples) →
  for_in (dict_keys todo) (Doubles.average_of_key contributions)
         (Doubles.averages_of done)
  = Ok (Doubles.averages_of (done ++ todo)).
Proof.
  revert done. induction todo as [|[k samples] todo IH]; intros done Hnd Hget.
  - by rewrite app_nil_r.
  - simpl. rewrite (doubles_average_of_key _ _ samples); [|apply Hget; left].
    simpl. rewrite dict_set_fresh.
    + replace (Doubles.averages_of done ++ [(k, Doubles.average samples)])
        with (Doubles.averages_of (done ++ [(k, samples)]))
        by (unfold Doubles.averages_of; by rewrite map_app).
      rewrite (IH (done ++ [(k, samples)])).
      * by rewrite <- app_assoc.
      * by rewrite <- app_assoc.
      * intros k' s' Hin. apply Hget. by right.
    + fold (dict_keys (Doubles.averages_of done)). rewrite doubles_averages_keys.
      unfold dict_keys in *.
      rewrite fmap_app in Hnd. apply NoDup_app in Hnd as (_ & Hdisj & _).
      intros Hin. apply (Hdisj k Hin). simpl. left.
Qed.

Lemma doubles_compute_averages contributions :
  NoDup (dict_keys contributions) →
  Doubles.compute_averages contributions = Ok (Doubles.averages_of contributions).
Proof.
  intros Hnd. unfold Doubles.compute_averages.
  apply (doubles_averages_loop contributions [] contributions Hnd).
  intros k samples Hin. by apply dict_get_In.
Qed.

Lemma doubles_average_mean (samples : list float) :
  samples ≠ [] → Doubles.average samples = Doubles.mean samples.
Proof.
  intros Hne. unfold Doubles.average, Doubles.mean.
  destruct samples as [|x samples]; [done|].
  by replace (Nat.max (length (x :: samples)) 1) with (length (x :: samples))
    by (simpl; lia).
Qed.

Lemma doubles_no_nan_averages contributions :
  Doubles.no_nan_average contributions →
  Forall (λ kv : string * float, is_nan kv.2 = false)
         (Doubles.averages_of contributions).
Proof.
  unfold Doubles.no_nan_average, Doubles.averages_of. intros Hnan.
  by apply Forall_fmap.
Qed.

Lemma doubles_sampled_all contributions :
  Doubles.all_sampled contributions →
  Doubles.sampled contributions = contributions.
Proof.
  unfold Doubles.all_sampled. intros Hall.
  induction Hall as [|[k samples] l Hne Hall IH]; [done|].
  unfold Doubles.sampled in *. rewrite filter_cons, IH.
  by destruct samples.
Qed.

(** ** Ranking: the claim and what holds of it *)

(** Equal scores stay in the order of the keys: [predA], whose samples
    0.25 and 0.75 average to 0.5, stays before [predB]. *)
Example rank_keeps_ties_in_key_order :
  Doubles.rank Scenario.contributions
  = Ok [("predC", 1); ("predA", 0.5); ("predB", 0.5)]%float.
Proof. by vm_compute. Qed.

(** Rounding decides an order. The samples 0.1 and 0.2 sum to
    0.30000000000000004, so that [predA] scores 0.15000000000000002 and
    ranks before [predB], whose two samples 0.15 average to 0.15, although
    [predB] is the first key. *)
Example rank_rounds_the_means :
  Doubles.rank Scenario.rounded
  = Ok [("predA", 0.15000000000000002); ("predB", 0.15)]%float.
Proof. by vm_compute. Qed.

(** With a NaN among the averages. The sort leaves the averages of
    [Scenario.with_nan] where they are: NaN is less than nothing and
    nothing is less than NaN, so that no item is found to be out of place
    (CPython takes the reversed list, 10, NaN, 1, ..., 9, for one run that
    is in order already). The cut to ten then drops the last item, [p10],
    whose score is the highest. *)
Example with_nan_ranking :
  Doubles.rank Scenario.with_nan
  = Ok [("p0", 9); ("p1", 8); ("p2", 7); ("p3", 6); ("p4", 5); ("p5", 4);
        ("p6", 3); ("p7", 2); ("p8", 1); ("p9", nan)]%float.
Proof. by vm_compute. Qed.

(** C6 (as stated) fails: the eleven predictors of [Scenario.with_nan]
    have one sample each, the sample of [p9] being NaN. Their averages are
    the samples, and no order of them is descending, NaN being neither
    below nor above the score 1 of [p8]. (The ranking itself is
    [with_nan_ranking]: it is not in descending order and leaves out the
    predictor of the highest mean.) *)
Lemma rank_with_nan_not_descending :
  ¬ Doubles.ranked_as_stated Scenario.with_nan.
Proof.
  intros (averages & sortedAll & Havg & _ & _ & Hperm & Hsorted & _).
  assert (averages = Doubles.averages_of Scenario.with_nan) as ->.
  { rewrite doubles_compute_averages in Havg; [congruence|].
    apply (bool_decide_unpack _). by vm_compute. }
  assert (("p8", 1%float) ∈ sortedAll) as H1.
  { rewrite Hperm. apply (list_elem_of_lookup_2 _ 8). by vm_compute. }
  assert (("p9", nan) ∈ sortedAll) as Hnan.
  { rewrite Hperm. apply (list_elem_of_lookup_2 _ 9). by vm_compute. }
  destruct (StronglySorted_related _ _ _ _ Hsorted H1 Hnan) as [Hle|Hle];
    [done| |]; by vm_compute in Hle.
Qed.

(** C6 (amended): for contributions with distinct keys in which every
    predictor has a sample and no average is NaN, the ranking is as the
    design document states it, the mean being the one that doubles give:
    the samples added to 0 from left to right, each sum rounded, and the
    total divided by their number. The ranking is the first ten items of a
    list of all the averages that is in descending order of score and
    keeps items of equal score in the order of the keys; it has ten items,
    or as many as there are predictors when these are fewer. *)
Theorem rank_sorted_stable_without_nan (contributions : dict (list float)) :
  NoDup (dict_keys contributions) →
  Doubles.all_sampled contributions →
  Doubles.no_nan_average contributions →
  (Doubles.py_sum [] = 0%float
   ∧ ∀ samples x,
       Doubles.py_sum (samples ++ [x]) = (Doubles.py_sum samples + x)%float)
  ∧ Doubles.ranked_as_stated contributions
  ∧ ∀ sortedAvgs, Doubles.rank contributions = Ok sortedAvgs →
      length sortedAvgs = Nat.min 10 (length contributions).
Proof.
  intros Hnd Hsampled Hnan.
  pose proof (sorted_reverse_Permutation snd (Doubles.averages_of contributions))
    as Hperm.
  assert (length (Doubles.sorted_reverse snd (Doubles.averages_of contributions))
          = length contributions) as Hlen.
  { rewrite Hperm. unfold Doubles.averages_of. by rewrite length_map. }
  assert (∀ k samples, (k, samples) ∈ contributions → samples ≠ [] →
            (k, Doubles.mean samples) ∈ Doubles.averages_of contributions)
    as Hmean.
  { intros k samples Hin Hne. rewrite <- (doubles_average_mean samples Hne).
    unfold Doubles.averages_of. apply list_elem_of_fmap. by exists (k, samples). }
  split_and!.
  - done.
  - intros samples x. unfold Doubles.py_sum. by rewrite fold_left_app.
  - exists (Doubles.averages_of contributions).
    exists (Doubles.sorted_reverse snd (Doubles.averages_of contributions)).
    split_and!.
    + by apply doubles_compute_averages.
    + exact Hmean.
    + unfold Doubles.rank. by rewrite doubles_compute_averages.
    + done.
    + apply sorted_reverse_sorted. by apply doubles_no_nan_averages.
    + intros v. apply sorted_reverse_ties.
    + rewrite length_take. lia.
    + rewrite (doubles_sampled_all _ Hsampled). intros Hlt k samples Hin Hne.
      rewrite take_ge by lia. rewrite Hperm. by apply Hmean.
  - intros sortedAvgs Hrank. unfold Doubles.rank in Hrank.
    rewrite doubles_compute_averages in Hrank by done.
    injection Hrank as <-. by rewrite length_take, Hlen.
Qed.

Lemma rank_sorted_stable_without_nan_witness :
  (NoDup (dict_keys Scenario.contributions)
   ∧ Doubles.all_sampled Scenario.contributions
   ∧ Doubles.no_nan_average Scenario.contributions)
  ∧ (Doubles.py_sum [] = 0%float
     ∧ ∀ samples x,
         Doubles.py_sum (samples ++ [x]) = (Doubles.py_sum samples + x)%float)
  ∧ Doubles.ranked_as_stated Scenario.contributions
  ∧ ∀ sortedAvgs, Doubles.rank Scenario.contributions = Ok sortedAvgs →
      length sortedAvgs = Nat.min 10 (length Scenario.contributions).
Proof.
  assert (NoDup (dict_keys Scenario.contributions)) as Hnd
    by (apply (bool_decide_unpack _); by vm_compute).
  assert (Doubles.all_sampled Scenario.contributions) as Hsampled
    by (repeat constructor; done).
  assert (Doubles.no_nan_average Scenario.contributions) as Hnan
    by (repeat constructor; by vm_compute).
  split; [done|].
  exact (rank_sorted_stable_without_nan Scenario.contributions Hnd Hsampled Hnan).
Defined.

(** ** Selecting the top: [getTopTen] *)

(** C7 (as stated) fails: with a pool of eleven prepared images, of paths
    [out/asc/pred<i>.asc], and a ranking of [pred0] and [pred1], the
    predictors of the final subset are [out/merra/pred0.nc] and
    [out/merra/pred1.nc], and the first of them is no image of the pool. *)
Lemma final_subset_not_from_pool :
  ¬ final_subset_from_pool Scenario.self (Scenario.pool 11)
      Scenario.ranked_tables Scenario.ranked_trials.
Proof.
  intros Hclaim.
  specialize (Hclaim [Scenario.merra "pred0"; Scenario.merra "pred1"]).
  assert (Scenario.merra "pred0" ∈ Scenario.pool 11) as Hin.
  { apply Hclaim; [by vm_compute|]. left. }
  revert Hin.
  apply (bool_decide_eq_false_1 (Scenario.merra "pred0" ∈ Scenario.pool 11)).
  by vm_compute.
Qed.

(** C7 (amended): every identifier [k] of the ranking is resolved to a new
    image of path [os.path.join(self._merraDir, k + '.nc')], a file of the
    directory of the fetched rasters, in the order of the ranking; the pool
    of prepared images is not consulted. *)
Theorem getTopTen_resolves_in_merra_directory (self : MmxRequest)
    (tables : gmap string csv_file) (trials : list Trial)
    (topTen : list GeospatialImageFile) :
  getTopTen self tables trials = Ok topTen →
  ∃ contributions sortedAvgs,
    _compileContributions tables trials = Ok (Some contributions)
    ∧ rank contributions = Ok sortedAvgs
    ∧ topTen = map (λ kv, {| fileName :=
                               OsPath.join (_merraDir self) (kv.1 +:+ ".nc") |})
                   sortedAvgs.
Proof.
  unfold getTopTen. intros Hrun.
  apply result_bind_Ok in Hrun as ([contributions|] & Hcompile & Hrun);
    [|done].
  apply result_bind_Ok in Hrun as (sortedAvgs & Hrank & [= <-]).
  by exists contributions, sortedAvgs.
Qed.

Lemma getTopTen_resolves_in_merra_directory_witness :
  getTopTen Scenario.self Scenario.ranked_tables Scenario.ranked_trials
    = Ok [Scenario.merra "pred0"; Scenario.merra "pred1"]
  ∧ ∃ contributions sortedAvgs,
      _compileContributions Scenario.ranked_tables Scenario.ranked_trials
        = Ok (Some contributions)
      ∧ rank contributions = Ok sortedAvgs
      ∧ [Scenario.merra "pred0"; Scenario.merra "pred1"]
        = map (λ kv, {| fileName := OsPath.join (_merraDir Scenario.self)
                                      (kv.1 +:+ ".nc") |})
              sortedAvgs.
Proof.
  assert (getTopTen Scenario.self Scenario.ranked_tables Scenario.ranked_trials
          = Ok [Scenario.merra "pred0"; Scenario.merra "pred1"]) as Hrun
    by by vm_compute.
  split; [exact Hrun|].
  exact (getTopTen_resolves_in_merra_directory Scenario.self
           Scenario.ranked_tables Scenario.ranked_trials _ Hrun).
Defined.

(** ** Planning: [random.sample] and [getTrialImagesIndexes] *)

Lemma sample_from_spec (k : nat) (pool : list nat) (g : rng) :
  (k ≤ length pool)%nat → NoDup pool →
  ∃ r g', sample_from k pool g = (Ok r, g')
          ∧ length r = k ∧ NoDup r ∧ r ⊆ pool.
Proof.
  revert pool g. induction k as [|k IH]; intros pool g Hlen Hnd.
  - exists [], g. split_and!; [done|done|constructor|set_solver].
  - set (j := (tape g (cursor g) `mod` length pool)%nat).
    assert (j < length pool)%nat as Hj
      by (apply Nat.mod_upper_bound; lia).
    destruct (lookup_lt_is_Some_2 pool j Hj) as [x Hx].
    pose proof (delete_Permutation pool j x Hx) as Hperm.
    assert (NoDup (x :: delete j pool)) as Hnd' by by rewrite <- Hperm.
    apply NoDup_cons in Hnd' as [Hfresh Hnd'].
    destruct (IH (delete j pool) {| tape := tape g; cursor := S (cursor g) |})
      as (r & g' & Hrun & Hr & Hndr & Hsub); [|done|].
    { rewrite length_delete by eauto. lia. }
    exists (x :: r), g'. split_and!.
    + simpl. rewrite (st_bind_Ok _ _ g _ j) by done.
      rewrite (st_bind_Ok _ _ _ _ _ Hrun).
      by rewrite (nth_lookup_Some _ _ _ _ Hx).
    + simpl. by rewrite Hr.
    + apply NoDup_cons. split; [|done]. intros Hin. apply Hfresh. by apply Hsub.
    + intros y Hy. apply elem_of_cons in Hy as [->|Hy].
      * by eapply list_elem_of_lookup_2.
      * rewrite Hperm. right. by apply Hsub.
Qed.

Lemma random_sample_range (m : nat) (g : rng) :
  (PREDICTORS_PER_TRIAL ≤ m)%nat →
  ∃ r g', random_sample (seq 0 m) PREDICTORS_PER_TRIAL g = (Ok r, g')
          ∧ index_set m r.
Proof.
  intros Hm. unfold random_sample. rewrite length_seq.
  destruct (Nat.ltb_spec m PREDICTORS_PER_TRIAL) as [?|_]; [lia|].
  destruct (sample_from_spec PREDICTORS_PER_TRIAL (seq 0 m) g)
    as (r & g' & Hrun & Hlen & Hnd & Hsub).
  { by rewrite length_seq. }
  { apply NoDup_seq. }
  exists r, g'. split; [done|]. split_and!; [done|done|].
  intros i Hi. apply Hsub, elem_of_seq in Hi. lia.
Qed.

Lemma plan_loop images (iters : list nat) (acc : list (list nat)) (g : rng) :
  (PREDICTORS_PER_TRIAL < length images)%nat →
  ∃ sets g', for_in iters (plan_trial images) acc g = (Ok (acc ++ sets), g')
             ∧ length sets = length iters
             ∧ Forall (index_set (length images - 1)) sets.
Proof.
  intros Hlen. revert acc g. induction iters as [|i iters IH]; intros acc g.
  - exists [], g. by rewrite app_nil_r.
  - destruct (random_sample_range (length images - 1) g)
      as (r & g1 & Hrun & Hset); [lia|].
    destruct (IH (acc ++ [r]) g1) as (sets & g' & Hloop & Hsets & Hall).
    assert (plan_trial images i acc g = (Ok (acc ++ [r]), g1)) as Hbody
      by (unfold plan_trial; by rewrite (st_bind_Ok _ _ _ _ _ Hrun)).
    exists (r :: sets), g'. split_and!.
    + simpl. rewrite (st_bind_Ok _ _ _ _ _ Hbody), Hloop.
      by rewrite <- app_assoc.
    + simpl. by rewrite Hsets.
    + by constructor.
Qed.

Lemma insufficient_msg_states (n : nat) :
  (n ≤ PREDICTORS_PER_TRIAL)%nat →
  String.prefix
    ("There are " +:+ PyStr.of_nat n +:+ " images and "
       +:+ PyStr.of_nat PREDICTORS_PER_TRIAL +:+ " predictors required")
    (insufficient_msg n) = true
  ∧ PyStr.contains "Consider broadening the image request."
      (insufficient_msg n) = true.
Proof.
  unfold PREDICTORS_PER_TRIAL. intros Hn.
  do 11 (destruct n as [|n]; [by vm_compute|]). lia.
Qed.

(** C2 (as the code behaves): for a pool of more than ten images and every
    tape of draws, planning returns as many index sets as there are trials,
    each of ten different indexes, each index below [poolSize - 1]: the
    population handed to [random.sample] is [range(0, len(images) - 1)], so
    the last index, [poolSize - 1], is in no set of any plan. *)
Theorem plan_shape_without_last_index (self : MmxRequest)
    (images : list GeospatialImageFile) (g : rng) :
  (PREDICTORS_PER_TRIAL < length images)%nat →
  ∃ plan g',
    getTrialImagesIndexes self images g = (Ok plan, g')
    ∧ length plan = Z.to_nat (_numTrials self)
    ∧ Forall (index_set (length images - 1)) plan
    ∧ ∀ s, s ∈ plan → (length images - 1)%nat ∉ s.
Proof.
  intros Hlen. unfold getTrialImagesIndexes.
  destruct (Nat.leb_spec (length images) PREDICTORS_PER_TRIAL) as [?|_]; [lia|].
  destruct (plan_loop images (seq 1 (Z.to_nat (_numTrials self))) [] g Hlen)
    as (plan & g' & Hrun & Hplan & Hall).
  exists plan, g'. split_and!; [done| by rewrite Hplan, length_seq |done|].
  intros s Hs Hin. rewrite Forall_forall in Hall.
  destruct (Hall s Hs) as (_ & _ & Hbound). specialize (Hbound _ Hin). lia.
Qed.

Lemma plan_shape_without_last_index_witness :
  (PREDICTORS_PER_TRIAL < length (Scenario.pool 11))%nat
  ∧ ∃ plan g',
      getTrialImagesIndexes Scenario.self (Scenario.pool 11) Scenario.gen
      = (Ok plan, g')
      ∧ length plan = Z.to_nat (_numTrials Scenario.self)
      ∧ Forall (index_set (length (Scenario.pool 11) - 1)) plan
      ∧ ∀ s, s ∈ plan → (length (Scenario.pool 11) - 1)%nat ∉ s.
Proof.
  assert (PREDICTORS_PER_TRIAL < length (Scenario.pool 11))%nat as Hlen
    by (vm_compute; lia).
  split; [exact Hlen|].
  exact (plan_shape_without_last_index Scenario.self (Scenario.pool 11)
           Scenario.gen Hlen).
Defined.

(** C5: with at most ten images planning raises the error whose message
    gives the number of images and the number of predictors of a trial and
    ends in the advice to broaden the image request, and the tape of draws
    is not touched; with eleven images planning raises nothing. *)
Theorem plan_pool_size_guard (self : MmxRequest)
    (images : list GeospatialImageFile) (g : rng) :
  ((length images ≤ PREDICTORS_PER_TRIAL)%nat →
     getTrialImagesIndexes self images g
     = (Raise (RuntimeError (insufficient_msg (length images))), g)
     ∧ String.prefix
         ("There are " +:+ PyStr.of_nat (length images) +:+ " images and "
            +:+ PyStr.of_nat PREDICTORS_PER_TRIAL +:+ " predictors required")
         (insufficient_msg (length images)) = true
     ∧ PyStr.contains "Consider broadening the image request."
         (insufficient_msg (length images)) = true)
  ∧ (length images = S PREDICTORS_PER_TRIAL →
     ∃ plan g', getTrialImagesIndexes self images g = (Ok plan, g')).
Proof.
  split.
  - intros Hlen. split; [|by apply insufficient_msg_states].
    unfold getTrialImagesIndexes.
    by destruct (Nat.leb_spec (length images) PREDICTORS_PER_TRIAL) as [_|?];
      [|lia].
  - intros Hlen.
    unfold getTrialImagesIndexes.
    destruct (Nat.leb_spec (length images) PREDICTORS_PER_TRIAL) as [?|_];
      [lia|].
    destruct (plan_loop images (seq 1 (Z.to_nat (_numTrials self))) [] g)
      as (plan & g' & Hrun & _); [lia|].
    by exists plan, g'.
Qed.

Lemma plan_pool_size_guard_witness :
  ((length (Scenario.pool 3) ≤ PREDICTORS_PER_TRIAL)%nat
   ∧ getTrialImagesIndexes Scenario.self (Scenario.pool 3) Scenario.gen
     = (Raise (RuntimeError (insufficient_msg (length (Scenario.pool 3)))),
        Scenario.gen))
  ∧ (length (Scenario.pool 11) = S PREDICTORS_PER_TRIAL
     ∧ ∃ plan g',
         getTrialImagesIndexes Scenario.self (Scenario.pool 11) Scenario.gen
         = (Ok plan, g')).
Proof.
  assert (length (Scenario.pool 3) ≤ PREDICTORS_PER_TRIAL)%nat as Hsmall
    by (vm_compute; lia).
  assert (length (Scenario.pool 11) = S PREDICTORS_PER_TRIAL) as Hnext
    by reflexivity.
  split.
  - split; [exact Hsmall|].
    exact (proj1 (proj1 (plan_pool_size_guard Scenario.self (Scenario.pool 3)
                           Scenario.gen) Hsmall)).
  - split; [exact Hnext|].
    exact (proj2 (plan_pool_size_guard Scenario.self (Scenario.pool 11)
                    Scenario.gen) Hnext).
Defined.

(** ** Construction: [__init__] *)

(** An output directory that is a file is refused with the error that the
    code means to raise, and nothing is created. *)
Lemma init_output_not_a_directory observationFile dateRange collection
    variables operation numTrials outputDirectory content
    (d : gmap string node) :
  d !! outputDirectory = Some (File content) →
  __init__ observationFile dateRange collection variables operation numTrials
    outputDirectory d
  = (Raise (RuntimeError (outputDirectory +:+ " must be a directory.")), d).
Proof.
  intros Hfile.
  assert (os_path_exists outputDirectory d = (Ok true, d)) as Hexists.
  { unfold os_path_exists. by rewrite Hfile. }
  assert (os_path_isdir outputDirectory d = (Ok false, d)) as Hisdir.
  { unfold os_path_isdir. by rewrite Hfile. }
  unfold __init__. rewrite (st_bind_Ok _ _ _ _ _ Hexists). simpl.
  by rewrite (st_bind_Ok _ _ _ _ _ Hisdir).
Qed.

(** C9 (as the code behaves): for an output directory that does not exist,
    construction fails and the disk is left as it was, so that none of the
    [asc], [merra] and [trials] directories is made; but what is raised is
    the [TypeError] of adding a string to an exception, not the error with
    the message that the directory does not exist. *)
Theorem init_missing_output_directory observationFile dateRange collection
    variables operation numTrials outputDirectory (d : gmap string node) :
  d !! outputDirectory = None →
  __init__ observationFile dateRange collection variables operation numTrials
    outputDirectory d
  = (Raise (TypeError
              "unsupported operand type(s) for +: 'RuntimeError' and 'str'"),
     d).
Proof.
  intros Hnone.
  assert (os_path_exists outputDirectory d = (Ok false, d)) as Hexists.
  { unfold os_path_exists. by rewrite Hnone. }
  unfold __init__. by rewrite (st_bind_Ok _ _ _ _ _ Hexists).
Qed.

Lemma init_missing_output_directory_witness :
  Scenario.disk !! "nowhere" = None
  ∧ __init__ Scenario.obs ["2013-02-03"; "2013-12-31"] "m2t1nxslv"
      ["QV2M"; "TS"] "avg" 10 "nowhere" Scenario.disk
    = (Raise (TypeError
                "unsupported operand type(s) for +: 'RuntimeError' and 'str'"),
       Scenario.disk).
Proof.
  assert (Scenario.disk !! "nowhere" = None) as Hnone by by vm_compute.
  split; [exact Hnone|].
  exact (init_missing_output_directory Scenario.obs
           ["2013-02-03"; "2013-12-31"] "m2t1nxslv" ["QV2M"; "TS"] "avg" 10
           "nowhere" Scenario.disk Hnone).
Defined.

(** ** Staging: what a call leaves of the disk *)

Lemma kept_outside_refl W d : kept_outside W d d.
Proof. intros p n Hp. split; [by eexists | done]. Qed.

Lemma kept_outside_trans W d1 d2 d3 :
  kept_outside W d1 d2 → kept_outside W d2 d3 → kept_outside W d1 d3.
Proof.
  intros H12 H23 p n Hp. destruct (H12 p n Hp) as [[n2 Hn2] Hsame].
  destruct (H23 p n2 Hn2) as [Hsome Hsame']. split; [done|].
  intros HW. apply Hsame in HW as Hp2. by destruct (H23 p n Hp2) as [_ ->].
Qed.

Lemma kept_outside_insert_fresh W d p n :
  d !! p = None → kept_outside W d (<[p := n]> d).
Proof.
  intros Hnone q m Hq. assert (p ≠ q) by congruence.
  rewrite lookup_insert_ne by done. split; [by eexists | done].
Qed.

Lemma kept_outside_insert W d p n :
  W p → kept_outside W d (<[p := n]> d).
Proof.
  intros HW q m Hq. destruct (decide (p = q)) as [<-|Hne].
  - rewrite lookup_insert_eq. split; [by eexists | done].
  - rewrite lookup_insert_ne by done. split; [by eexists | done].
Qed.

Lemma keeps_bind {A B : Type} W (m : st (gmap string node) A)
    (k : A → st (gmap string node) B) :
  keeps W m → (∀ a, keeps W (k a)) → keeps W (m ≫= k).
Proof.
  intros Hm Hk d. unfold mbind, st_bind. specialize (Hm d).
  destruct (m d) as [[a|e] d1]; simpl in *; [|done].
  eapply kept_outside_trans; [done | apply Hk].
Qed.

Lemma keeps_ret {A : Type} W (a : A) : keeps W (mret a).
Proof. intros d. apply kept_outside_refl. Qed.

Lemma keeps_lift {A : Type} W (r : result A) : keeps W (lift r).
Proof. intros d. apply kept_outside_refl. Qed.

Lemma keeps_exists W p : keeps W (os_path_exists p).
Proof. intros d. apply kept_outside_refl. Qed.

Lemma keeps_mkdir W p : keeps W (os_mkdir p).
Proof.
  intros d. unfold os_mkdir. destruct (d !! p) eqn:Hp; simpl.
  - apply kept_outside_refl.
  - by apply kept_outside_insert_fresh.
Qed.

Lemma keeps_mkdir_if_absent W p : keeps W (mkdir_if_absent p).
Proof.
  apply keeps_bind; [apply keeps_exists|]. intros [|]; simpl.
  - apply keeps_ret.
  - apply keeps_mkdir.
Qed.

Lemma keeps_copyfile (W : string → Prop) src dst :
  W dst → keeps W (shutil_copyfile src dst).
Proof.
  intros HW d. unfold shutil_copyfile.
  destruct (d !! src) as [[|content]|]; simpl; try apply kept_outside_refl;
    destruct (String.eqb src dst); simpl; try apply kept_outside_refl.
  destruct (d !! dst) as [[|?]|]; simpl; try apply kept_outside_refl;
    by apply kept_outside_insert.
Qed.

Lemma keeps_stage_predictor W trialAscDir ascGif u :
  keeps W (stage_predictor trialAscDir ascGif u).
Proof.
  intros d. unfold stage_predictor, mbind, st_bind, os_path_exists.
  destruct (d !! OsPath.join trialAscDir (OsPath.basename (fileName ascGif)))
    as [n|] eqn:Hdst; simpl.
  - apply kept_outside_refl.
  - unfold shutil_copyfile. rewrite Hdst.
    destruct (d !! fileName ascGif) as [[|content]|]; simpl;
      try apply kept_outside_refl;
      destruct (String.eqb _ _); simpl; try apply kept_outside_refl.
    by apply kept_outside_insert_fresh.
Qed.

Lemma keeps_for_in {A : Type} W (xs : list A)
    (body : A → unit → st (gmap string node) unit) (u : unit) :
  (∀ x u', keeps W (body x u')) → keeps W (for_in xs body u).
Proof.
  intros Hbody. revert u. induction xs as [|x xs IH]; intros u; simpl.
  - apply keeps_ret.
  - apply keeps_bind; [apply Hbody | apply IH].
Qed.

(** Whatever a staging call does, and whether it succeeds or not, it
    deletes nothing, and it leaves every node that was on the disk as it
    was, but for the copy of the observation file. *)
Lemma prepareOneTrial_keeps self images trialImageIndexes trialNum :
  keeps (λ p, p = trialObsPath_of self trialNum)
        (prepareOneTrial self images trialImageIndexes trialNum).
Proof.
  unfold prepareOneTrial.
  apply keeps_bind; [apply keeps_mkdir_if_absent | intros _].
  apply keeps_bind; [by apply keeps_copyfile | intros _].
  apply keeps_bind; [apply keeps_lift | intros trialPredictors].
  apply keeps_bind; [apply keeps_mkdir_if_absent | intros _].
  apply keeps_bind; [|intros _; apply keeps_ret].
  apply keeps_for_in. intros x u'. apply keeps_stage_predictor.
Qed.

(** ** Staging twice *)

Lemma mkdir_if_absent_present p (d : gmap string node) :
  is_Some (d !! p) → mkdir_if_absent p d = (Ok (), d).
Proof.
  intros Hp. unfold mkdir_if_absent, mbind, st_bind, os_path_exists.
  by rewrite bool_decide_eq_true_2.
Qed.

Lemma mkdir_if_absent_inv p (d d1 : gmap string node) r :
  mkdir_if_absent p d = (r, d1) → is_Some (d1 !! p).
Proof.
  unfold mkdir_if_absent, mbind, st_bind, os_path_exists, os_mkdir.
  destruct (d !! p) as [n|] eqn:Hp; simpl.
  - intros [= _ <-]. by rewrite Hp.
  - rewrite Hp. intros [= _ <-]. rewrite lookup_insert_eq. by eexists.
Qed.

Lemma copyfile_inv src dst (d d2 : gmap string node) u :
  shutil_copyfile src dst d = (Ok u, d2) →
  ∃ content, d !! src = Some (File content) ∧ src ≠ dst
             ∧ d2 = <[dst := File content]> d.
Proof.
  unfold shutil_copyfile.
  destruct (d !! src) as [[|content]|]; [| |done];
    (destruct (String.eqb_spec src dst) as [->|Hne]; [done|]); [done|].
  destruct (d !! dst) as [[|?]|]; [done| |];
    intros [= _ <-]; by exists content.
Qed.

Lemma copyfile_again src dst (d : gmap string node) content :
  d !! src = Some (File content) → d !! dst = Some (File content) →
  src ≠ dst → shutil_copyfile src dst d = (Ok (), d).
Proof.
  intros Hsrc Hdst Hne. unfold shutil_copyfile. rewrite Hsrc, Hdst.
  destruct (String.eqb_spec src dst) as [?|_]; [done|].
  by rewrite insert_id.
Qed.

Lemma stage_predictor_present trialAscDir ascGif u (d : gmap string node) :
  is_Some (d !! OsPath.join trialAscDir (OsPath.basename (fileName ascGif))) →
  stage_predictor trialAscDir ascGif u d = (Ok (), d).
Proof.
  intros Hp. unfold stage_predictor, mbind, st_bind, os_path_exists.
  by rewrite bool_decide_eq_true_2.
Qed.

Lemma stage_predictor_inv trialAscDir ascGif u u' (d d1 : gmap string node) :
  stage_predictor trialAscDir ascGif u d = (Ok u', d1) →
  is_Some (d1 !! OsPath.join trialAscDir (OsPath.basename (fileName ascGif))).
Proof.
  unfold stage_predictor, mbind, st_bind, os_path_exists.
  destruct (d !! OsPath.join _ _) as [n|] eqn:Hdst; simpl.
  - intros [= _ <-]. by rewrite Hdst.
  - intros (content & _ & _ & ->)%copyfile_inv.
    rewrite lookup_insert_eq. by eexists.
Qed.

Lemma stage_loop_inv trialAscDir trialPredictors u u' (d d' : gmap string node) :
  for_in trialPredictors (stage_predictor trialAscDir) u d = (Ok u', d') →
  ∀ ascGif, ascGif ∈ trialPredictors →
    is_Some (d' !! OsPath.join trialAscDir (OsPath.basename (fileName ascGif))).
Proof.
  revert u d. induction trialPredictors as [|x xs IH]; intros u d Hrun g Hg.
  - by apply elem_of_nil in Hg.
  - simpl in Hrun. apply st_bind_inv_Ok in Hrun as (u1 & d1 & Hx & Hxs).
    apply elem_of_cons in Hg as [->|Hg]; [|by eapply IH].
    apply stage_predictor_inv in Hx as [n Hn].
    pose proof (keeps_for_in (λ _, False) xs (stage_predictor trialAscDir) u1
                  (λ y u2, keeps_stage_predictor _ trialAscDir y u2) d1)
      as Hkept.
    rewrite Hxs in Hkept. by destruct (Hkept _ n Hn).
Qed.

Lemma stage_loop_present trialAscDir trialPredictors (d : gmap string node) :
  (∀ ascGif, ascGif ∈ trialPredictors →
     is_Some (d !! OsPath.join trialAscDir (OsPath.basename (fileName ascGif)))) →
  for_in trialPredictors (stage_predictor trialAscDir) () d = (Ok (), d).
Proof.
  induction trialPredictors as [|x xs IH]; intros Hall; [done|].
  simpl. rewrite (st_bind_Ok _ _ d d ()).
  - apply IH. intros g Hg. apply Hall. by right.
  - apply stage_predictor_present, Hall. left.
Qed.

(** X14: staging twice. A second staging call with the same arguments, on
    the disk that the first one left, returns the same trial and leaves the
    disk as it is: the observation file is copied again, with the same
    content. *)
Lemma prepareOneTrial_twice self images trialImageIndexes trialNum
    (d d' : gmap string node) trial :
  prepareOneTrial self images trialImageIndexes trialNum d = (Ok trial, d') →
  prepareOneTrial self images trialImageIndexes trialNum d' = (Ok trial, d').
Proof.
  unfold prepareOneTrial. cbv zeta.
  set (TRIAL_DIR := OsPath.join (_trialsDir self) _).
  set (trialObsPath := OsPath.join TRIAL_DIR _).
  set (trialAscDir := OsPath.join TRIAL_DIR _).
  intros Hrun.
  apply st_bind_inv_Ok in Hrun as ([] & d1 & Hdir & Hrun).
  apply st_bind_inv_Ok in Hrun as ([] & d2 & Hcopy & Hrun).
  apply st_bind_inv_Ok in Hrun as (trialPredictors & d2' & Hsel & Hrun).
  unfold lift in Hsel. injection Hsel as Hsel <-.
  apply st_bind_inv_Ok in Hrun as ([] & d3 & Hasc & Hrun).
  apply st_bind_inv_Ok in Hrun as ([] & d4 & Hloop & Hret).
  injection Hret as <- <-.
  apply mkdir_if_absent_inv in Hdir as Hdir'.
  apply copyfile_inv in Hcopy as (content & Hsrc & Hne & ->).
  pose proof (keeps_mkdir_if_absent (λ _, False) trialAscDir
                (<[trialObsPath := File content]> d1)) as Hkept3.
  rewrite Hasc in Hkept3. simpl in Hkept3.
  pose proof (keeps_for_in (λ _, False) trialPredictors
                (stage_predictor trialAscDir) ()
                (λ y u2, keeps_stage_predictor _ _ y u2) d3) as Hkept4.
  rewrite Hloop in Hkept4. simpl in Hkept4.
  pose proof (kept_outside_trans _ _ _ _ Hkept3 Hkept4) as Hkept.
  assert (∀ p n, <[trialObsPath := File content]> d1 !! p = Some n →
                 d4 !! p = Some n) as Hsame.
  { intros p n Hp. destruct (Hkept p n Hp) as [_ Hp']. apply Hp'. tauto. }
  rewrite (st_bind_Ok _ _ d4 d4 ()).
  2: { apply mkdir_if_absent_present.
       assert (is_Some (<[trialObsPath := File content]> d1 !! TRIAL_DIR))
         as [n Hn] by (apply lookup_insert_is_Some'; by right).
       by destruct (Hkept _ n Hn). }
  rewrite (st_bind_Ok _ _ d4 d4 ()).
  2: { apply (copyfile_again _ _ _ content); [| |done].
       - apply Hsame. by rewrite lookup_insert_ne.
       - apply Hsame. apply lookup_insert_eq. }
  rewrite (st_bind_Ok _ _ d4 d4 trialPredictors)
    by (unfold lift; by rewrite Hsel).
  rewrite (st_bind_Ok _ _ d4 d4 ()).
  2: { apply mkdir_if_absent_present.
       apply mkdir_if_absent_inv in Hasc as [na Hna].
       by destruct (Hkept4 _ na Hna). }
  rewrite (st_bind_Ok _ _ d4 d4 ()); [done|].
  apply stage_loop_present. by eapply stage_loop_inv.
Qed.

(** C4 (as the code behaves): staging trial 1 on a disk where the trial
    directory already holds a copy of the observation file writes that copy
    again, with what the observation file holds now: the copy of the
    observation file is not guarded by a test of existence, as the copies
    of the predictors are. *)
Theorem staging_overwrites_observation_copy :
  Scenario.restaged_disk !! "out/trials/trial-1/ebd.csv"
    = Some (File "older observations")
  ∧ (prepareOneTrial Scenario.self (Scenario.pool 2) [0; 1]%nat (TrialInt 1)
       Scenario.restaged_disk).1
    = Ok (Scenario.trial 1 (Scenario.pool 2))
  ∧ (prepareOneTrial Scenario.self (Scenario.pool 2) [0; 1]%nat (TrialInt 1)
       Scenario.restaged_disk).2 !! "out/trials/trial-1/ebd.csv"
    = Some (File "observations").
Proof. split_and!; by vm_compute. Qed.

(** ** The final trial *)

Lemma select_images_app (images : list GeospatialImageFile)
    (idxs1 idxs2 : list nat) :
  select_images images (idxs1 ++ idxs2)
  = (r1 ← select_images images idxs1;
     r2 ← select_images images idxs2;
     Ok (r1 ++ r2)).
Proof.
  induction idxs1 as [|i idxs1 IH]; simpl.
  - by destruct (select_images images idxs2).
  - destruct (images !! i); [|done]. rewrite IH.
    destruct (select_images images idxs1); [|done]. simpl.
    by destruct (select_images images idxs2).
Qed.

Lemma select_images_prefix (l l' : list GeospatialImageFile) :
  select_images (l ++ l') (seq 0 (length l)) = Ok l.
Proof.
  revert l'. induction l as [|x l IH] using rev_ind; intros l'; [done|].
  rewrite length_app, seq_app, select_images_app, <- app_assoc, IH. simpl.
  by rewrite lookup_app_r, Nat.sub_diag.
Qed.

(** [range(0, len(l) - 1)] selects all of [l] but its last item. *)
Lemma select_images_drops_last (topTen : list GeospatialImageFile) :
  select_images topTen (seq 0 (length topTen - 1)) = Ok (removelast topTen).
Proof.
  destruct topTen as [|x topTen] using rev_ind; [done|].
  rewrite removelast_last, length_app. simpl.
  replace (length topTen + 1 - 1)%nat with (length topTen) by lia.
  apply select_images_prefix.
Qed.

(** C3 (as the code behaves): with a ranking of two predictors, [pred0]
    first and [pred1] last, the final trial, of directory [trial-final],
    holds [pred0] alone, and no file of [pred1] is staged: the indexes
    handed to the staging are [range(0, len(topTen) - 1)]. *)
Theorem final_trial_drops_last_ranked :
  getTopTen Scenario.self Scenario.ranked_tables Scenario.ranked_trials
    = Ok [Scenario.merra "pred0"; Scenario.merra "pred1"]
  ∧ (run_final Scenario.self Scenario.ranked_tables Scenario.ranked_trials
       Scenario.disk).1
    = Ok {| directory := "out/trials/trial-final";
            obsFile := {| _filePath := "out/trials/trial-final/ebd.csv";
                          _species := "Cassin's Sparrow" |};
            images := [Scenario.merra "pred0"] |}
  ∧ (run_final Scenario.self Scenario.ranked_tables Scenario.ranked_trials
       Scenario.disk).2 !! "out/trials/trial-final/asc/pred0.nc"
    = Some (File "raw raster 0")
  ∧ (run_final Scenario.self Scenario.ranked_tables Scenario.ranked_trials
       Scenario.disk).2 !! "out/trials/trial-final/asc/pred1.nc"
    = None.
Proof. split_and!; by vm_compute. Qed.

(** * Further properties *)

(** A run that returns [a] is the pair of [a] and of the state it leaves. *)
Lemma run_Ok {St A : Type} (x : result A * St) (a : A) :
  x.1 = Ok a → x = (Ok a, x.2).
Proof. destruct x as [r s]. simpl. by intros ->. Qed.

(** ** Column names and predictor keys *)

Lemma prefix_nil (s : string) : String.prefix EmptyString s = true.
Proof. by destruct s. Qed.

Lemma prefix_before_space (kwd s r : string) :
  PyStr.contains " " kwd = false →
  String.prefix kwd (s +:+ String " " r) = String.prefix kwd s.
Proof.
  revert s. induction kwd as [|k kwd IH]; intros s Hkwd.
  - by rewrite !prefix_nil.
  - simpl in Hkwd. apply orb_false_iff in Hkwd as [Hk Hkwd].
    destruct s as [|c s]; simpl.
    + destruct (ascii_dec k " ") as [->|_]; [|done].
      simpl in Hk. by rewrite prefix_nil in Hk.
    + destruct (ascii_dec k c); [|done]. by apply IH.
Qed.

Lemma lstrip_length (s : string) :
  (String.length (PyStr.lstrip s) ≤ String.length s)%nat.
Proof.
  induction s as [|c s IH]; simpl; [done|].
  destruct (PyStr.isspace c); simpl; lia.
Qed.

Lemma rstrip_space (s : string) :
  PyStr.rstrip (s +:+ " ") = PyStr.rstrip s.
Proof.
  induction s as [|c s IH]; [done|]. simpl. by rewrite IH.
Qed.

Lemma split_head_marked (name rest : string) :
  PyStr.contains CONTRIB_KWD name = false →
  PyStr.split_head CONTRIB_KWD (marked_column name rest) = name +:+ " ".
Proof.
  unfold marked_column. induction name as [|c name IH]; intros Hname.
  - simpl. by rewrite prefix_nil.
  - change (PyStr.contains CONTRIB_KWD (String c name))
      with (String.prefix CONTRIB_KWD (String c name)
            || PyStr.contains CONTRIB_KWD name) in Hname.
    apply orb_false_iff in Hname as [Hhere Hname].
    change (PyStr.split_head CONTRIB_KWD
              (String c name +:+ " " +:+ CONTRIB_KWD +:+ rest))
      with (if String.prefix CONTRIB_KWD
                 (String c name +:+ String " " (CONTRIB_KWD +:+ rest))
            then EmptyString
            else String c (PyStr.split_head CONTRIB_KWD
                             (name +:+ " " +:+ CONTRIB_KWD +:+ rest))).
    rewrite prefix_before_space, Hhere by done.
    by rewrite IH.
Qed.

Lemma contains_marked (name rest : string) :
  PyStr.contains CONTRIB_KWD (marked_column name rest) = true.
Proof.
  unfold marked_column. induction name as [|c name IH].
  - simpl. by rewrite prefix_nil.
  - change (PyStr.contains CONTRIB_KWD
              (String c name +:+ " " +:+ CONTRIB_KWD +:+ rest))
      with (String.prefix CONTRIB_KWD
              (String c name +:+ " " +:+ CONTRIB_KWD +:+ rest)
            || PyStr.contains CONTRIB_KWD
                 (name +:+ " " +:+ CONTRIB_KWD +:+ rest)).
    rewrite IH. apply orb_true_r.
Qed.

Lemma strip_name_space (name : string) :
  PyStr.lstrip name = name → PyStr.rstrip name = name →
  PyStr.strip (name +:+ " ") = name.
Proof.
  intros Hl Hr. unfold PyStr.strip. destruct name as [|c name]; [done|].
  assert (PyStr.isspace c = false) as Hc.
  { destruct (PyStr.isspace c) eqn:Hc; [|done]. simpl in Hl.
    rewrite Hc in Hl. pose proof (lstrip_length name) as Hlen.
    rewrite Hl in Hlen. simpl in Hlen. lia. }
  change (PyStr.lstrip (String c name +:+ " "))
    with (if PyStr.isspace c then PyStr.lstrip (name +:+ " ")
          else String c name +:+ " ").
  by rewrite Hc, rstrip_space.
Qed.

(** X1: the key of a column. For a predictor name that does not hold the
    marker and has no white space at its ends, the column
    [name + ' permutation' + rest] matches the marker and is keyed by
    [name], whatever [rest] is. *)
Theorem column_key_is_predictor_name (name rest : string) :
  PyStr.contains CONTRIB_KWD name = false →
  PyStr.lstrip name = name → PyStr.rstrip name = name →
  PyStr.contains CONTRIB_KWD (marked_column name rest) = true
  ∧ PyStr.strip (PyStr.split_head CONTRIB_KWD (marked_column name rest))
    = name.
Proof.
  intros Hname Hl Hr. split; [apply contains_marked|].
  rewrite split_head_marked by done. by apply strip_name_space.
Qed.

Lemma column_key_is_predictor_name_witness :
  (PyStr.contains CONTRIB_KWD "m2t1nxslv_avg_2013_QV2M" = false
   ∧ PyStr.lstrip "m2t1nxslv_avg_2013_QV2M" = "m2t1nxslv_avg_2013_QV2M"
   ∧ PyStr.rstrip "m2t1nxslv_avg_2013_QV2M" = "m2t1nxslv_avg_2013_QV2M")
  ∧ PyStr.contains CONTRIB_KWD
      (marked_column "m2t1nxslv_avg_2013_QV2M" " importance") = true
  ∧ PyStr.strip (PyStr.split_head CONTRIB_KWD
                   (marked_column "m2t1nxslv_avg_2013_QV2M" " importance"))
    = "m2t1nxslv_avg_2013_QV2M".
Proof.
  split; [by vm_compute|].
  apply (column_key_is_predictor_name "m2t1nxslv_avg_2013_QV2M" " importance");
    reflexivity.
Defined.

(** ** Aggregation of one table *)

Lemma marked_column_not_other (other name rest : string) :
  PyStr.contains CONTRIB_KWD other = false →
  String.eqb (marked_column name rest) other = false.
Proof.
  intros Hother. apply String.eqb_neq. intros Heq.
  pose proof (contains_marked name rest) as Hcol. congruence.
Qed.

Lemma contributions_of_samples_snoc (name : string) (pre : list Q) (q : Q) :
  contributions_of_samples name (pre ++ [q]) = [(name, pre ++ [q])].
Proof. by destruct pre. Qed.

Section MarkedColumn.
Context (other name rest : string).
Context (Hother : PyStr.contains CONTRIB_KWD other = false).
Context (Hname : PyStr.contains CONTRIB_KWD name = false).
Context (Hl : PyStr.lstrip name = name) (Hr : PyStr.rstrip name = name).

Lemma row_dict_marked (c v : cell) :
  dict_of_zip [other; marked_column name rest] [c; v]
  = [(other, c); (marked_column name rest, v)].
Proof.
  unfold dict_of_zip. cbn [zip_with fold_left dict_set fst snd].
  by rewrite marked_column_not_other.
Qed.

Lemma contributions_of_key_other (rowDict : dict cell)
    (contributions : dict (list Q)) :
  contributions_of_key rowDict other contributions = Ok contributions.
Proof. unfold contributions_of_key. by rewrite Hother. Qed.

Lemma contributions_of_key_marked (c : cell) (q : Q) (pre : list Q) :
  contributions_of_key [(other, c); (marked_column name rest, FloatCell q)]
    (marked_column name rest) (contributions_of_samples name pre)
  = Ok (contributions_of_samples name (pre ++ [q])).
Proof.
  unfold contributions_of_key.
  rewrite contains_marked, split_head_marked, strip_name_space by done.
  cbn [dict_get].
  rewrite marked_column_not_other, String.eqb_refl by done.
  rewrite contributions_of_samples_snoc.
  destruct pre as [|p pre]; cbn [contributions_of_samples dict_get dict_set];
    rewrite !String.eqb_refl; cbn [dict_get dict_set];
    by rewrite ?String.eqb_refl.
Qed.

Lemma contributions_of_key_text (c : cell) (s : string)
    (contributions : dict (list Q)) :
  ∃ msg,
    contributions_of_key [(other, c); (marked_column name rest, TextCell s)]
      (marked_column name rest) contributions
    = Raise (ValueError msg).
Proof.
  unfold contributions_of_key. rewrite contains_marked.
  cbn [dict_get].
  rewrite marked_column_not_other, String.eqb_refl by done.
  by eexists.
Qed.

Lemma contributions_of_row_marked (c : cell) (q : Q) (pre : list Q) :
  contributions_of_row [other; marked_column name rest] [c; FloatCell q]
    (contributions_of_samples name pre)
  = Ok (contributions_of_samples name (pre ++ [q])).
Proof.
  unfold contributions_of_row. rewrite row_dict_marked. simpl.
  rewrite contributions_of_key_other. simpl.
  by rewrite contributions_of_key_marked.
Qed.

Lemma contributions_of_rows_marked (rows : list (cell * Q)) (pre : list Q) :
  for_in (map (λ r, [r.1; FloatCell r.2]) rows)
    (contributions_of_row [other; marked_column name rest])
    (contributions_of_samples name pre)
  = Ok (contributions_of_samples name (pre ++ rows.*2)).
Proof.
  revert pre. induction rows as [|[c q] rows IH]; intros pre; simpl.
  - by rewrite app_nil_r.
  - rewrite contributions_of_row_marked. simpl.
    rewrite IH. by rewrite <- app_assoc.
Qed.

Lemma contributions_of_row_text (c : cell) (s : string)
    (contributions : dict (list Q)) :
  ∃ msg,
    contributions_of_row [other; marked_column name rest] [c; TextCell s]
      contributions
    = Raise (ValueError msg).
Proof.
  unfold contributions_of_row. rewrite row_dict_marked. simpl.
  rewrite contributions_of_key_other. simpl.
  destruct (contributions_of_key_text c s contributions) as [msg ->].
  by exists msg.
Qed.

End MarkedColumn.

Lemma for_in_app {A S : Type} (xs ys : list A) (body : A → S → result S)
    (s : S) :
  for_in (xs ++ ys) body s = (s' ← for_in xs body s; for_in ys body s').
Proof.
  revert s. induction xs as [|x xs IH]; intros s; simpl; [done|].
  destruct (body x s) as [s'|e]; simpl; [apply IH | done].
Qed.

Lemma compileContributions_table tables trial more header rows :
  tables !! resultsFile_of trial = Some (Table header rows) →
  _compileContributions tables (trial :: more)
  = (contributions ← for_in rows (contributions_of_row header) [];
     Ok (Some contributions)).
Proof.
  intros Htable. rewrite compileContributions_first_only.
  unfold _compileContributions. simpl. unfold compile_trial.
  rewrite Htable. simpl. by destruct (for_in rows _ _).
Qed.

(** X2: the samples of a column. When the table of the first trial has a
    column without the marker and the marked column of a predictor, and
    every row holds a number in the marked column, the contributions are
    the one entry of that predictor with the numbers of the rows, in the
    order of the rows (and no entry at all when the table has no row). *)
Theorem compileContributions_samples_in_row_order
    (tables : gmap string csv_file) (trial : Trial) (more : list Trial)
    (other name rest : string) (rows : list (cell * Q)) :
  PyStr.contains CONTRIB_KWD other = false →
  PyStr.contains CONTRIB_KWD name = false →
  PyStr.lstrip name = name → PyStr.rstrip name = name →
  tables !! resultsFile_of trial
    = Some (Table [other; marked_column name rest]
                  (map (λ r, [r.1; FloatCell r.2]) rows)) →
  _compileContributions tables (trial :: more)
  = Ok (Some (contributions_of_samples name rows.*2)).
Proof.
  intros Hother Hname Hl Hr Htable.
  rewrite (compileContributions_table _ _ _ _ _ Htable).
  change (@nil (string * list Q)) with (contributions_of_samples name []).
  by rewrite (contributions_of_rows_marked other name rest Hother Hname Hl Hr).
Qed.

Lemma compileContributions_samples_in_row_order_witness :
  (PyStr.contains CONTRIB_KWD "Species" = false
   ∧ PyStr.contains CONTRIB_KWD "predA" = false
   ∧ PyStr.lstrip "predA" = "predA" ∧ PyStr.rstrip "predA" = "predA"
   ∧ Scenario.three_rows !! resultsFile_of (Scenario.trial 1 [])
     = Some (Table ["Species"; marked_column "predA" " importance"]
                   (map (λ r, [r.1; FloatCell r.2])
                        [(TextCell "a", 0.2); (TextCell "b", 0.8);
                         (TextCell "c", 0.5)]%Q)))
  ∧ _compileContributions Scenario.three_rows [Scenario.trial 1 []]
    = Ok (Some [("predA", [0.2; 0.8; 0.5]%Q)]).
Proof.
  split; [by vm_compute|].
  apply (compileContributions_samples_in_row_order Scenario.three_rows
           (Scenario.trial 1 []) [] "Species" "predA" " importance"
           [(TextCell "a", 0.2); (TextCell "b", 0.8); (TextCell "c", 0.5)]%Q);
    reflexivity.
Defined.

(** X3: a cell that is no number. When a row of that table holds, in the
    marked column, a text that [float] refuses, and the rows before it
    hold numbers, aggregation raises [ValueError], whatever the rows after
    it are. *)
Theorem compileContributions_refuses_text_cell
    (tables : gmap string csv_file) (trial : Trial) (more : list Trial)
    (other name rest : string) (good : list (cell * Q)) (c : cell)
    (s : string) (after : list (list cell)) :
  PyStr.contains CONTRIB_KWD other = false →
  PyStr.contains CONTRIB_KWD name = false →
  PyStr.lstrip name = name → PyStr.rstrip name = name →
  tables !! resultsFile_of trial
    = Some (Table [other; marked_column name rest]
                  (map (λ r, [r.1; FloatCell r.2]) good
                   ++ [c; TextCell s] :: after)) →
  ∃ msg, _compileContributions tables (trial :: more)
         = Raise (ValueError msg).
Proof.
  intros Hother Hname Hl Hr Htable.
  rewrite (compileContributions_table _ _ _ _ _ Htable), for_in_app.
  change (@nil (string * list Q)) with (contributions_of_samples name []).
  rewrite (contributions_of_rows_marked other name rest Hother Hname Hl Hr).
  simpl.
  destruct (contributions_of_row_text other name rest Hother c s
              (contributions_of_samples name good.*2)) as [msg ->].
  by exists msg.
Qed.

Lemma compileContributions_refuses_text_cell_witness :
  (PyStr.contains CONTRIB_KWD "Species" = false
   ∧ PyStr.contains CONTRIB_KWD "predA" = false
   ∧ PyStr.lstrip "predA" = "predA" ∧ PyStr.rstrip "predA" = "predA"
   ∧ Scenario.text_row !! resultsFile_of (Scenario.trial 1 [])
     = Some (Table ["Species"; marked_column "predA" " importance"]
                   (map (λ r, [r.1; FloatCell r.2]) [(TextCell "a", 0.2%Q)]
                    ++ [TextCell "b"; TextCell "n/a"] :: [])))
  ∧ ∃ msg, _compileContributions Scenario.text_row [Scenario.trial 1 []]
           = Raise (ValueError msg).
Proof.
  split; [by vm_compute|].
  apply (compileContributions_refuses_text_cell Scenario.text_row
           (Scenario.trial 1 []) [] "Species" "predA" " importance"
           [(TextCell "a", 0.2%Q)] (TextCell "b") "n/a" []);
    reflexivity.
Defined.

(** ** What the contributions hold *)

Lemma dict_get_set_eq {V : Type} (d : dict V) (k : string) (v : V) :
  dict_get k (dict_set k v d) = Some v.
Proof.
  induction d as [|[k' v'] d IH]; simpl.
  - by rewrite String.eqb_refl.
  - destruct (String.eqb_spec k k') as [->|Hne]; simpl.
    + by rewrite String.eqb_refl.
    + by destruct (String.eqb_spec k k').
Qed.

Lemma dict_get_set_ne {V : Type} (d : dict V) (k k' : string) (v : V) :
  k' ≠ k → dict_get k' (dict_set k v d) = dict_get k' d.
Proof.
  intros Hne. induction d as [|[k0 v0] d IH]; simpl.
  - by destruct (String.eqb_spec k' k).
  - destruct (String.eqb_spec k k0) as [->|Hk]; simpl.
    + by destruct (String.eqb_spec k' k0).
    + destruct (String.eqb_spec k' k0); [done | apply IH].
Qed.

Lemma dict_set_key_elem {V : Type} (d : dict V) (k x : string) (v : V) :
  x ∈ dict_keys (dict_set k v d) → x = k ∨ x ∈ dict_keys d.
Proof.
  destruct (decide (k ∈ dict_keys d)) as [Hin|Hout].
  - rewrite dict_set_keys by done. by right.
  - rewrite dict_set_fresh by done. unfold dict_keys. rewrite fmap_app.
    intros [?|[->|[]%elem_of_nil]%elem_of_cons]%elem_of_app; [by right|by left].
Qed.

Lemma dict_of_zip_keys {V : Type} (ks : list string) (vs : list V) :
  dict_keys (dict_of_zip ks vs) ⊆ ks.
Proof.
  unfold dict_of_zip.
  assert (∀ (kvs : list (string * V)) (d : dict V) x,
            x ∈ dict_keys (fold_left (λ d kv, dict_set kv.1 kv.2 d) kvs d) →
            x ∈ dict_keys d ∨ x ∈ kvs.*1) as Hfold.
  { induction kvs as [|[k v] kvs IH]; intros d x Hx; simpl in *; [by left|].
    apply IH in Hx as [Hx|Hx]; [|by right; right].
    apply dict_set_key_elem in Hx as [->|Hx]; [right; left | by left]. }
  intros x Hx. apply Hfold in Hx as [[]%elem_of_nil|Hx].
  apply list_elem_of_fmap in Hx as ([k v] & -> & Hkv).
  by apply elem_of_zip_l in Hkv.
Qed.

(** The key that a column of the header stands for. *)
Lemma contributions_of_key_keys (header : list string) rowDict key
    contributions contributions' :
  key ∈ header →
  (∀ k, k ∈ dict_keys contributions →
        ∃ h, h ∈ header ∧ PyStr.contains CONTRIB_KWD h = true
             ∧ k = PyStr.strip (PyStr.split_head CONTRIB_KWD h)) →
  contributions_of_key rowDict key contributions = Ok contributions' →
  ∀ k, k ∈ dict_keys contributions' →
       ∃ h, h ∈ header ∧ PyStr.contains CONTRIB_KWD h = true
            ∧ k = PyStr.strip (PyStr.split_head CONTRIB_KWD h).
Proof.
  intros Hkey Hinv. unfold contributions_of_key.
  destruct (PyStr.contains CONTRIB_KWD key) eqn:Hmark; [|by intros [= <-]].
  intros Hrun.
  apply result_bind_Ok in Hrun as (c & _ & Hrun).
  apply result_bind_Ok in Hrun as (x & _ & Hrun).
  apply result_bind_Ok in Hrun as (samples & _ & [= <-]).
  intros k [->|Hk]%dict_set_key_elem; [by exists key|].
  destruct (dict_get _ contributions); [by apply Hinv|].
  apply dict_set_key_elem in Hk as [->|Hk]; [by exists key | by apply Hinv].
Qed.

Lemma contributions_of_key_samples rowDict key contributions contributions' :
  (∀ k samples, dict_get k contributions = Some samples → samples ≠ []) →
  contributions_of_key rowDict key contributions = Ok contributions' →
  ∀ k samples, dict_get k contributions' = Some samples → samples ≠ [].
Proof.
  intros Hinv. unfold contributions_of_key.
  destruct (PyStr.contains CONTRIB_KWD key); [|by intros [= <-]].
  set (newKey := PyStr.strip (PyStr.split_head CONTRIB_KWD key)).
  intros Hrun.
  apply result_bind_Ok in Hrun as (c & _ & Hrun).
  apply result_bind_Ok in Hrun as (x & _ & Hrun).
  apply result_bind_Ok in Hrun as (samples & _ & [= <-]).
  intros k s. destruct (decide (k = newKey)) as [->|Hne].
  - rewrite dict_get_set_eq. intros [= <-]. by destruct samples.
  - rewrite dict_get_set_ne by done.
    destruct (dict_get newKey contributions); [apply Hinv|].
    rewrite dict_get_set_ne by done. apply Hinv.
Qed.

(** X4: the keys of the contributions. Every key of the contributions
    that aggregation returns is the text, before the marker and stripped
    of white space, of a column of the header of the first trial's table
    that holds the marker: columns without the marker give no key. *)
Theorem compileContributions_keys_from_marked_columns
    (tables : gmap string csv_file) (trial : Trial) (more : list Trial)
    (contributions : dict (list Q)) :
  _compileContributions tables (trial :: more) = Ok (Some contributions) →
  ∃ header rows,
    tables !! resultsFile_of trial = Some (Table header rows)
    ∧ ∀ k, k ∈ dict_keys contributions →
           ∃ h, h ∈ header ∧ PyStr.contains CONTRIB_KWD h = true
                ∧ k = PyStr.strip (PyStr.split_head CONTRIB_KWD h).
Proof.
  intros Hrun.
  destruct (tables !! resultsFile_of trial) as [[|header rows]|] eqn:Htable.
  - by rewrite (compileContributions_first_unreadable _ _ _ Htable) in Hrun.
  - exists header, rows. split; [done|].
    rewrite (compileContributions_table _ _ _ _ _ Htable) in Hrun.
    apply result_bind_Ok in Hrun as (c & Hrows & [= <-]).
    apply (for_in_invariant
             (λ c, ∀ k, k ∈ dict_keys c →
                   ∃ h, h ∈ header ∧ PyStr.contains CONTRIB_KWD h = true
                        ∧ k = PyStr.strip (PyStr.split_head CONTRIB_KWD h))
             rows (contributions_of_row header) [] c);
      [|by intros k []%elem_of_nil|done].
    intros row t t' Ht Hrow. unfold contributions_of_row in Hrow.
    assert (∀ keys u u',
              keys ⊆ header →
              (∀ k, k ∈ dict_keys u →
                 ∃ h, h ∈ header ∧ PyStr.contains CONTRIB_KWD h = true
                      ∧ k = PyStr.strip (PyStr.split_head CONTRIB_KWD h)) →
              for_in keys (contributions_of_key (dict_of_zip header row)) u
              = Ok u' →
              ∀ k, k ∈ dict_keys u' →
                 ∃ h, h ∈ header ∧ PyStr.contains CONTRIB_KWD h = true
                      ∧ k = PyStr.strip (PyStr.split_head CONTRIB_KWD h))
      as Hkeys.
    { induction keys as [|key keys IH]; intros u u' Hsub Hu Hloop.
      - by injection Hloop as <-.
      - simpl in Hloop. apply result_bind_Ok in Hloop as (u1 & Hkey & Hloop).
        apply (IH u1 u'); [set_solver| |done].
        eapply contributions_of_key_keys; [|exact Hu|exact Hkey]. set_solver. }
    exact (Hkeys _ t t' (dict_of_zip_keys header row) Ht Hrow).
  - by rewrite (compileContributions_first_missing _ _ _ Htable) in Hrun.
Qed.

Lemma compileContributions_keys_from_marked_columns_witness :
  _compileContributions Scenario.ranked_tables Scenario.ranked_trials
    = Ok (Some [("pred0", [0.8]); ("pred1", [0.2])]%Q)
  ∧ ∃ header rows,
      Scenario.ranked_tables
        !! resultsFile_of (Scenario.trial 1 (take 10 (Scenario.pool 11)))
        = Some (Table header rows)
      ∧ ∀ k, k ∈ dict_keys [("pred0", [0.8]); ("pred1", [0.2])]%Q →
             ∃ h, h ∈ header ∧ PyStr.contains CONTRIB_KWD h = true
                  ∧ k = PyStr.strip (PyStr.split_head CONTRIB_KWD h).
Proof.
  assert (_compileContributions Scenario.ranked_tables Scenario.ranked_trials
          = Ok (Some [("pred0", [0.8]); ("pred1", [0.2])]%Q)) as Hrun
    by by vm_compute.
  split; [exact Hrun|].
  exact (compileContributions_keys_from_marked_columns Scenario.ranked_tables
           (Scenario.trial 1 (take 10 (Scenario.pool 11))) [] _ Hrun).
Defined.

(** X5: aggregation and ranking together. Every predictor of the
    contributions that aggregation returns has at least one sample, so
    that the divisor [max(len(samples), 1)] of its average in [getTopTen]
    is the number of its samples. *)
Theorem compiled_predictors_have_samples (tables : gmap string csv_file)
    (trials : list Trial) (contributions : dict (list Q)) :
  _compileContributions tables trials = Ok (Some contributions) →
  ∀ k samples, (k, samples) ∈ contributions →
    samples ≠ [] ∧ Nat.max (length samples) 1 = length samples.
Proof.
  intros Hrun. pose proof (compileContributions_NoDup _ _ _ Hrun) as Hnd.
  assert (∀ k samples, (k, samples) ∈ contributions → samples ≠ []) as Hne.
  { intros k samples Hin. apply (dict_get_In _ _ _ Hnd) in Hin.
    revert k samples Hin. destruct trials as [|trial more]; [done|].
    destruct (tables !! resultsFile_of trial) as [[|header rows]|] eqn:Htable.
    - by rewrite (compileContributions_first_unreadable _ _ _ Htable) in Hrun.
    - rewrite (compileContributions_table _ _ _ _ _ Htable) in Hrun.
      apply result_bind_Ok in Hrun as (c & Hrows & [= <-]).
      apply (for_in_invariant
               (λ c, ∀ k samples, dict_get k c = Some samples → samples ≠ [])
               rows (contributions_of_row header) [] c); [|done|done].
      intros row t t' Ht Hrow. unfold contributions_of_row in Hrow.
      apply (for_in_invariant
               (λ c, ∀ k samples, dict_get k c = Some samples → samples ≠ [])
               (dict_keys (dict_of_zip header row))
               (contributions_of_key (dict_of_zip header row)) t t');
        [|exact Ht|exact Hrow].
      intros key u u' Hu Hkey. by eapply contributions_of_key_samples.
    - by rewrite (compileContributions_first_missing _ _ _ Htable) in Hrun. }
  intros k samples Hin. pose proof (Hne k samples Hin) as Hsamples.
  split; [exact Hsamples|]. destruct samples; [done|]. simpl. lia.
Qed.

Lemma compiled_predictors_have_samples_witness :
  _compileContributions Scenario.three_rows [Scenario.trial 1 []]
    = Ok (Some [("predA", [0.2; 0.8; 0.5]%Q)])
  ∧ ∀ k samples, (k, samples) ∈ [("predA", [0.2; 0.8; 0.5]%Q)] →
      samples ≠ [] ∧ Nat.max (length samples) 1 = length samples.
Proof.
  assert (_compileContributions Scenario.three_rows [Scenario.trial 1 []]
          = Ok (Some [("predA", [0.2; 0.8; 0.5]%Q)])) as Hrun
    by by vm_compute.
  split; [exact Hrun|].
  exact (compiled_predictors_have_samples Scenario.three_rows
           [Scenario.trial 1 []] _ Hrun).
Defined.

(** ** [getTopTen]: what it reads and how it fails *)

(** X6: the ranking depends on the first trial alone. Whatever trials
    follow the first, and whatever their tables hold, [getTopTen] returns
    what it returns for the first trial by itself. *)
Theorem getTopTen_reads_first_trial_only (self : MmxRequest)
    (tables : gmap string csv_file) (trial : Trial) (more : list Trial) :
  getTopTen self tables (trial :: more) = getTopTen self tables [trial].
Proof.
  unfold getTopTen. by rewrite compileContributions_first_only.
Qed.

(** X7: the failures of [getTopTen]. With no trial at all the method
    raises [AttributeError], aggregation having returned [None]; with the
    table of the first trial missing it raises [FileNotFoundError] with
    the path [<trial directory>/maxentResults.csv]; with a table without a
    header it raises [RuntimeError] with ['Error reading '] and that
    path. *)
Theorem getTopTen_failures (self : MmxRequest)
    (tables : gmap string csv_file) (trial : Trial) (more : list Trial) :
  (∃ msg, getTopTen self tables [] = Raise (AttributeError msg))
  ∧ (tables !! OsPath.join (directory trial) "maxentResults.csv" = None →
     getTopTen self tables (trial :: more)
     = Raise (FileNotFoundError
                (OsPath.join (directory trial) "maxentResults.csv")))
  ∧ (tables !! OsPath.join (directory trial) "maxentResults.csv"
       = Some NoHeader →
     getTopTen self tables (trial :: more)
     = Raise (RuntimeError
                ("Error reading "
                   +:+ OsPath.join (directory trial) "maxentResults.csv"))).
Proof.
  split_and!.
  - by eexists.
  - intros Hnone. unfold getTopTen.
    by rewrite (compileContributions_first_missing _ _ _ Hnone).
  - intros Hempty. unfold getTopTen.
    by rewrite (compileContributions_first_unreadable _ _ _ Hempty).
Qed.

Lemma getTopTen_failures_witness :
  (Scenario.second_empty
     !! OsPath.join (directory (Scenario.trial 3 [])) "maxentResults.csv"
   = None
   ∧ getTopTen Scenario.self Scenario.second_empty
       [Scenario.trial 3 []; Scenario.trial 1 []]
     = Raise (FileNotFoundError "out/trials/trial-3/maxentResults.csv"))
  ∧ (Scenario.second_empty
       !! OsPath.join (directory (Scenario.trial 2 [])) "maxentResults.csv"
     = Some NoHeader
     ∧ getTopTen Scenario.self Scenario.second_empty
         [Scenario.trial 2 []; Scenario.trial 1 []]
       = Raise (RuntimeError
                  "Error reading out/trials/trial-2/maxentResults.csv")).
Proof.
  assert (Scenario.second_empty
            !! OsPath.join (directory (Scenario.trial 3 [])) "maxentResults.csv"
          = None) as Hnone by by vm_compute.
  assert (Scenario.second_empty
            !! OsPath.join (directory (Scenario.trial 2 [])) "maxentResults.csv"
          = Some NoHeader) as Hempty by by vm_compute.
  split; (split; [done|]).
  - exact (proj1 (proj2 (getTopTen_failures Scenario.self
             Scenario.second_empty (Scenario.trial 3 [])
             [Scenario.trial 1 []])) Hnone).
  - exact (proj2 (proj2 (getTopTen_failures Scenario.self
             Scenario.second_empty (Scenario.trial 2 [])
             [Scenario.trial 1 []])) Hempty).
Defined.

(** ** The ranking keeps the best *)

(** X8: what the cut to ten leaves out. For contributions with distinct
    keys and no average that is NaN, the ranked predictors are distinct
    keys of the contributions, at most ten of them, and every predictor
    that is left out of the ranking has an average that is no more than
    the score of any ranked predictor. (With a NaN among the averages the
    best predictor can be the one left out: [with_nan_ranking].) *)
Theorem rank_keeps_the_best (contributions : dict (list float))
    (ranking : list (string * float)) :
  NoDup (dict_keys contributions) →
  Doubles.no_nan_average contributions →
  Doubles.rank contributions = Ok ranking →
  (length ranking ≤ 10)%nat
  ∧ NoDup ranking.*1
  ∧ ranking.*1 ⊆ dict_keys contributions
  ∧ ∀ k samples ranked,
      (k, samples) ∈ contributions → k ∉ ranking.*1 → ranked ∈ ranking →
      (Doubles.average samples <=? ranked.2)%float = true.
Proof.
  intros Hnd Hnan. unfold Doubles.rank.
  rewrite doubles_compute_averages by done. simpl.
  intros [= <-].
  set (sortedAll := Doubles.sorted_reverse snd (Doubles.averages_of contributions)).
  pose proof (sorted_reverse_Permutation snd (Doubles.averages_of contributions))
    as Hperm.
  pose proof (sorted_reverse_sorted snd (Doubles.averages_of contributions)
                (doubles_no_nan_averages _ Hnan)) as Hsorted.
  fold sortedAll in Hperm, Hsorted.
  assert (sortedAll.*1 ≡ₚ dict_keys contributions) as Hkeys.
  { rewrite Hperm. fold (dict_keys (Doubles.averages_of contributions)).
    by rewrite doubles_averages_keys. }
  split_and!.
  - rewrite length_take. lia.
  - rewrite fmap_take. eapply sublist_NoDup; [|apply sublist_take].
    by rewrite Hkeys.
  - intros k Hk. rewrite <- Hkeys. rewrite fmap_take in Hk.
    apply elem_of_take in Hk as (i & Hi & _).
    by eapply list_elem_of_lookup_2.
  - intros k samples ranked Hin Hout Hranked.
    assert ((k, Doubles.average samples) ∈ sortedAll) as Hall.
    { rewrite Hperm. unfold Doubles.averages_of. apply list_elem_of_fmap.
      by exists (k, samples). }
    rewrite <- (take_drop 10 sortedAll) in Hall, Hsorted.
    apply elem_of_app in Hall as [Htop|Hrest].
    + destruct Hout. apply list_elem_of_fmap.
      by exists (k, Doubles.average samples).
    + exact (StronglySorted_app_1_elem_of _ _ _ _ _ Hsorted Hranked Hrest).
Qed.

Lemma rank_keeps_the_best_witness :
  (NoDup (dict_keys Scenario.twelve)
   ∧ Doubles.no_nan_average Scenario.twelve
   ∧ Doubles.rank Scenario.twelve = Ok Scenario.twelve_ranked)
  ∧ (length Scenario.twelve_ranked ≤ 10)%nat
  ∧ NoDup Scenario.twelve_ranked.*1
  ∧ Scenario.twelve_ranked.*1 ⊆ dict_keys Scenario.twelve
  ∧ ∀ k samples ranked,
      (k, samples) ∈ Scenario.twelve → k ∉ Scenario.twelve_ranked.*1 →
      ranked ∈ Scenario.twelve_ranked →
      (Doubles.average samples <=? ranked.2)%float = true.
Proof.
  assert (NoDup (dict_keys Scenario.twelve)) as Hnd
    by (apply (bool_decide_unpack _); by vm_compute).
  assert (Doubles.no_nan_average Scenario.twelve) as Hnan
    by (repeat constructor; by vm_compute).
  assert (Doubles.rank Scenario.twelve = Ok Scenario.twelve_ranked) as Hrank
    by by vm_compute.
  split; [done|].
  exact (rank_keeps_the_best Scenario.twelve Scenario.twelve_ranked
           Hnd Hnan Hrank).
Defined.

(** ** Planning and the pool *)

(** X9: no trial asked for. With more than ten images and a number of
    trials that is zero or negative, the plan is empty and no draw is
    made: [range(1, T + 1)] is empty. *)
Theorem plan_without_trials (self : MmxRequest)
    (images : list GeospatialImageFile) (g : rng) :
  (PREDICTORS_PER_TRIAL < length images)%nat →
  (_numTrials self ≤ 0)%Z →
  getTrialImagesIndexes self images g = (Ok [], g).
Proof.
  intros Hlen HT. unfold getTrialImagesIndexes.
  destruct (Nat.leb_spec (length images) PREDICTORS_PER_TRIAL) as [?|_]; [lia|].
  by replace (Z.to_nat (_numTrials self)) with 0%nat by lia.
Qed.

Lemma plan_without_trials_witness :
  ((PREDICTORS_PER_TRIAL < length (Scenario.pool 11))%nat
   ∧ (_numTrials Scenario.no_trials ≤ 0)%Z)
  ∧ getTrialImagesIndexes Scenario.no_trials (Scenario.pool 11) Scenario.gen
    = (Ok [], Scenario.gen).
Proof.
  assert (PREDICTORS_PER_TRIAL < length (Scenario.pool 11))%nat as Hlen
    by (vm_compute; lia).
  assert (_numTrials Scenario.no_trials ≤ 0)%Z as HT by (vm_compute; done).
  split; [by split|].
  exact (plan_without_trials Scenario.no_trials (Scenario.pool 11)
           Scenario.gen Hlen HT).
Defined.

Lemma select_images_in_range (images : list GeospatialImageFile)
    (idxs : list nat) :
  Forall (λ i, (i < length images)%nat) idxs →
  ∃ imgs, select_images images idxs = Ok imgs
          ∧ Forall2 (λ i img, images !! i = Some img) idxs imgs.
Proof.
  induction 1 as [|i idxs Hi _ (imgs & Hsel & Hall)].
  - exists []. by split; [|constructor].
  - destruct (lookup_lt_is_Some_2 images i Hi) as [img Himg].
    exists (img :: imgs). simpl. rewrite Himg, Hsel. by split; [|constructor].
Qed.

Lemma select_images_out_of_range (images : list GeospatialImageFile)
    (before after : list nat) (i : nat) :
  Forall (λ j, (j < length images)%nat) before →
  (length images ≤ i)%nat →
  select_images images (before ++ i :: after) = Raise (IndexError i).
Proof.
  intros Hbefore Hi. induction Hbefore as [|j before Hj _ IH]; simpl.
  - by rewrite (lookup_ge_None_2 images i Hi).
  - destruct (lookup_lt_is_Some_2 images j Hj) as [img ->]. by rewrite IH.
Qed.

Lemma selected_NoDup (images imgs : list GeospatialImageFile)
    (idxs : list nat) :
  NoDup images → NoDup idxs →
  Forall2 (λ i img, images !! i = Some img) idxs imgs → NoDup imgs.
Proof.
  intros Himages Hidxs Hall. revert Hidxs.
  induction Hall as [|i img idxs imgs Hi Hall IH]; intros Hidxs.
  - constructor.
  - apply NoDup_cons in Hidxs as [Hfresh Hidxs].
    apply NoDup_cons. split; [|by apply IH].
    intros Hin. apply list_elem_of_lookup in Hin as [n Hn].
    destruct (Forall2_lookup_r _ _ _ _ _ Hall Hn) as (j & Hj & Hlook).
    assert (i = j) as -> by exact (NoDup_lookup images i j img Himages Hi Hlook).
    apply Hfresh. by eapply list_elem_of_lookup_2.
Qed.

(** X10: a plan can always be staged. For more than ten images, every
    index set of the plan selects, without [IndexError], ten images of the
    pool; when the images of the pool are distinct, the ten are distinct
    too, and the last image of the pool is not among them. *)
Theorem planned_sets_select_ten_images (self : MmxRequest)
    (images : list GeospatialImageFile) (g g' : rng)
    (plan : list (list nat)) :
  (PREDICTORS_PER_TRIAL < length images)%nat →
  getTrialImagesIndexes self images g = (Ok plan, g') →
  ∀ idxs, idxs ∈ plan →
    ∃ imgs, select_images images idxs = Ok imgs
            ∧ length imgs = PREDICTORS_PER_TRIAL
            ∧ imgs ⊆ images
            ∧ (NoDup images →
               NoDup imgs ∧ ∀ img, last images = Some img → img ∉ imgs).
Proof.
  intros Hlen Hrun idxs Hidxs. unfold getTrialImagesIndexes in Hrun.
  destruct (Nat.leb_spec (length images) PREDICTORS_PER_TRIAL) as [?|_];
    [lia|].
  destruct (plan_loop images (seq 1 (Z.to_nat (_numTrials self))) [] g Hlen)
    as (plan' & g'' & Hrun' & _ & Hall).
  rewrite Hrun' in Hrun. injection Hrun as <- <-.
  rewrite Forall_forall in Hall.
  destruct (Hall idxs Hidxs) as (Hten & Hnd & Hbound).
  destruct (select_images_in_range images idxs) as (imgs & Hsel & Hlook).
  { apply Forall_forall. intros i Hi. specialize (Hbound i Hi). lia. }
  exists imgs. split_and!; [done| | |].
  - by rewrite <- (Forall2_length _ _ _ Hlook).
  - intros img Himg. apply list_elem_of_lookup in Himg as [n Hn].
    destruct (Forall2_lookup_r _ _ _ _ _ Hlook Hn) as (i & _ & Hi).
    by eapply list_elem_of_lookup_2.
  - intros Himages. split; [by eapply selected_NoDup|].
    intros img Hlast Himg. apply list_elem_of_lookup in Himg as [n Hn].
    destruct (Forall2_lookup_r _ _ _ _ _ Hlook Hn) as (i & Hi & Himg).
    rewrite last_lookup in Hlast.
    assert (i = Nat.pred (length images)) as ->
      by exact (NoDup_lookup images _ _ img Himages Himg Hlast).
    apply list_elem_of_lookup_2 in Hi. specialize (Hbound _ Hi). lia.
Qed.

Lemma planned_sets_select_ten_images_witness :
  ((PREDICTORS_PER_TRIAL < length (Scenario.pool 11))%nat
   ∧ getTrialImagesIndexes Scenario.self (Scenario.pool 11) Scenario.gen
     = (Ok [[3; 1; 2; 6; 4; 8; 5; 7; 9; 0]; [3; 9; 8; 4; 7; 5; 6; 2; 1; 0]]%nat,
        {| tape := tape Scenario.gen; cursor := 20 |}))
  ∧ ∀ idxs,
      idxs ∈ [[3; 1; 2; 6; 4; 8; 5; 7; 9; 0]; [3; 9; 8; 4; 7; 5; 6; 2; 1; 0]]%nat →
      ∃ imgs, select_images (Scenario.pool 11) idxs = Ok imgs
              ∧ length imgs = PREDICTORS_PER_TRIAL
              ∧ imgs ⊆ Scenario.pool 11
              ∧ (NoDup (Scenario.pool 11) →
                 NoDup imgs
                 ∧ ∀ img, last (Scenario.pool 11) = Some img → img ∉ imgs).
Proof.
  assert (PREDICTORS_PER_TRIAL < length (Scenario.pool 11))%nat as Hlen
    by (vm_compute; lia).
  assert (getTrialImagesIndexes Scenario.self (Scenario.pool 11) Scenario.gen
          = (Ok [[3; 1; 2; 6; 4; 8; 5; 7; 9; 0];
                 [3; 9; 8; 4; 7; 5; 6; 2; 1; 0]]%nat,
             {| tape := tape Scenario.gen; cursor := 20 |})) as Hrun
    by by vm_compute.
  split; [by split|].
  exact (planned_sets_select_ten_images Scenario.self (Scenario.pool 11)
           Scenario.gen _ _ Hlen Hrun).
Defined.

(** ** Construction on an output directory that is there *)

Lemma mkdir_if_absent_run p (d : gmap string node) :
  mkdir_if_absent p d
  = (Ok (), match d !! p with
            | Some _ => d
            | None => <[p := Dir]> d
            end).
Proof.
  unfold mkdir_if_absent, mbind, st_bind, os_path_exists, os_mkdir.
  destruct (d !! p) as [n|] eqn:Hp; simpl; [done|]. by rewrite Hp.
Qed.

Lemma mkdir_if_absent_new p (d d1 : gmap string node) q :
  mkdir_if_absent p d = (Ok (), d1) → d !! q = None →
  d1 !! q = None ∨ (q = p ∧ d1 !! q = Some Dir).
Proof.
  rewrite mkdir_if_absent_run. intros [= <-] Hq.
  destruct (d !! p) as [n|] eqn:Hp; [by left|].
  destruct (decide (p = q)) as [<-|Hne].
  - right. by rewrite lookup_insert_eq.
  - left. by rewrite lookup_insert_ne.
Qed.

Lemma init_run observationFile dateRange collection variables operation
    numTrials outputDirectory (d : gmap string node) :
  d !! outputDirectory = Some Dir →
  ∃ d1 d2 d3,
    mkdir_if_absent (OsPath.join outputDirectory "asc") d = (Ok (), d1)
    ∧ mkdir_if_absent (OsPath.join outputDirectory "merra") d1 = (Ok (), d2)
    ∧ mkdir_if_absent (OsPath.join outputDirectory "trials") d2 = (Ok (), d3)
    ∧ __init__ observationFile dateRange collection variables operation
        numTrials outputDirectory d
      = (Ok {| _outputDirectory := outputDirectory;
               _ascDir := OsPath.join outputDirectory "asc";
               _merraDir := OsPath.join outputDirectory "merra";
               _trialsDir := OsPath.join outputDirectory "trials";
               _numTrials := numTrials;
               _observationFile := observationFile;
               _dateRange := dateRange;
               _collection := collection;
               _variables := variables;
               _operation := operation |}, d3).
Proof.
  intros Hdir.
  assert (os_path_exists outputDirectory d = (Ok true, d)) as Hexists.
  { unfold os_path_exists. by rewrite Hdir. }
  assert (os_path_isdir outputDirectory d = (Ok true, d)) as Hisdir.
  { unfold os_path_isdir. by rewrite Hdir. }
  eexists _, _, _. split_and!; [apply mkdir_if_absent_run..|].
  unfold __init__. rewrite (st_bind_Ok _ _ _ _ _ Hexists). simpl.
  rewrite (st_bind_Ok _ _ _ _ _ Hisdir). simpl.
  rewrite (st_bind_Ok _ _ _ _ _ (mkdir_if_absent_run _ _)).
  rewrite (st_bind_Ok _ _ _ _ _ (mkdir_if_absent_run _ _)).
  by rewrite (st_bind_Ok _ _ _ _ _ (mkdir_if_absent_run _ _)).
Qed.

(** X11: construction on an existing directory. It succeeds; the request
    holds the paths [asc], [merra] and [trials] joined to the output
    directory; the three paths exist afterwards; every node that was on the
    disk is as it was; and a path that was not there before is one of the
    three, now a directory. *)
Theorem init_makes_the_three_directories observationFile dateRange
    collection variables operation numTrials outputDirectory
    (d : gmap string node) :
  d !! outputDirectory = Some Dir →
  ∃ self d',
    __init__ observationFile dateRange collection variables operation
      numTrials outputDirectory d = (Ok self, d')
    ∧ _ascDir self = OsPath.join outputDirectory "asc"
    ∧ _merraDir self = OsPath.join outputDirectory "merra"
    ∧ _trialsDir self = OsPath.join outputDirectory "trials"
    ∧ _observationFile self = observationFile
    ∧ _numTrials self = numTrials
    ∧ is_Some (d' !! _ascDir self)
    ∧ is_Some (d' !! _merraDir self)
    ∧ is_Some (d' !! _trialsDir self)
    ∧ (∀ p n, d !! p = Some n → d' !! p = Some n)
    ∧ (∀ p, d !! p = None → is_Some (d' !! p) →
            d' !! p = Some Dir
            ∧ p ∈ [_ascDir self; _merraDir self; _trialsDir self]).
Proof.
  intros Hdir.
  destruct (init_run observationFile dateRange collection variables operation
              numTrials outputDirectory d Hdir)
    as (d1 & d2 & d3 & H1 & H2 & H3 & Hrun).
  pose proof (keeps_mkdir_if_absent (λ _, False)
                (OsPath.join outputDirectory "asc") d) as K1.
  pose proof (keeps_mkdir_if_absent (λ _, False)
                (OsPath.join outputDirectory "merra") d1) as K2.
  pose proof (keeps_mkdir_if_absent (λ _, False)
                (OsPath.join outputDirectory "trials") d2) as K3.
  rewrite H1 in K1. rewrite H2 in K2. rewrite H3 in K3. simpl in K1, K2, K3.
  eexists _, d3. split; [exact Hrun|]. simpl.
  split_and!; try done.
  - apply mkdir_if_absent_inv in H1 as [n Hn].
    destruct (K2 _ n Hn) as [[n2 Hn2] _]. by destruct (K3 _ n2 Hn2).
  - apply mkdir_if_absent_inv in H2 as [n Hn]. by destruct (K3 _ n Hn).
  - by apply mkdir_if_absent_inv in H3.
  - intros p n Hp.
    destruct (K1 p n Hp) as [_ Hp1]. specialize (Hp1 (λ F, F)).
    destruct (K2 p n Hp1) as [_ Hp2]. specialize (Hp2 (λ F, F)).
    destruct (K3 p n Hp2) as [_ Hp3]. exact (Hp3 (λ F, F)).
  - intros p Hp Hsome.
    destruct (mkdir_if_absent_new _ _ _ p H1 Hp) as [Hp1|[-> Hp1]].
    + destruct (mkdir_if_absent_new _ _ _ p H2 Hp1) as [Hp2|[-> Hp2]].
      * destruct (mkdir_if_absent_new _ _ _ p H3 Hp2) as [Hp3|[-> Hp3]].
        -- rewrite Hp3 in Hsome. by destruct Hsome.
        -- split; [done | set_solver].
      * destruct (K3 _ _ Hp2) as [_ Hp3]. split; [exact (Hp3 (λ F, F)) | set_solver].
    + destruct (K2 _ _ Hp1) as [_ Hp2]. specialize (Hp2 (λ F, F)).
      destruct (K3 _ _ Hp2) as [_ Hp3]. split; [exact (Hp3 (λ F, F)) | set_solver].
Qed.

Lemma init_makes_the_three_directories_witness :
  Scenario.bare_disk !! "out" = Some Dir
  ∧ ∃ self d',
      __init__ Scenario.obs ["2013-02-03"; "2013-12-31"] "m2t1nxslv"
        ["QV2M"; "TS"] "avg" 2 "out" Scenario.bare_disk = (Ok self, d')
      ∧ _ascDir self = OsPath.join "out" "asc"
      ∧ _merraDir self = OsPath.join "out" "merra"
      ∧ _trialsDir self = OsPath.join "out" "trials"
      ∧ _observationFile self = Scenario.obs
      ∧ _numTrials self = 2%Z
      ∧ is_Some (d' !! _ascDir self)
      ∧ is_Some (d' !! _merraDir self)
      ∧ is_Some (d' !! _trialsDir self)
      ∧ (∀ p n, Scenario.bare_disk !! p = Some n → d' !! p = Some n)
      ∧ (∀ p, Scenario.bare_disk !! p = None → is_Some (d' !! p) →
              d' !! p = Some Dir
              ∧ p ∈ [_ascDir self; _merraDir self; _trialsDir self]).
Proof.
  assert (Scenario.bare_disk !! "out" = Some Dir) as Hdir by by vm_compute.
  split; [exact Hdir|].
  exact (init_makes_the_three_directories Scenario.obs
           ["2013-02-03"; "2013-12-31"] "m2t1nxslv" ["QV2M"; "TS"] "avg" 2
           "out" Scenario.bare_disk Hdir).
Defined.

(** X12: construction twice. A second construction with the same
    arguments, on the disk that the first one left, returns the same
    request and changes nothing: the directories that are there are not
    made again. *)
Theorem init_twice observationFile dateRange collection variables operation
    numTrials outputDirectory (d d' : gmap string node) (self : MmxRequest) :
  __init__ observationFile dateRange collection variables operation
    numTrials outputDirectory d = (Ok self, d') →
  __init__ observationFile dateRange collection variables operation
    numTrials outputDirectory d' = (Ok self, d').
Proof.
  intros Hrun.
  assert (d !! outputDirectory = Some Dir) as Hdir.
  { destruct (d !! outputDirectory) as [[|content]|] eqn:Hout; [done| |].
    - by rewrite (init_output_not_a_directory _ _ _ _ _ _ _ _ _ Hout) in Hrun.
    - revert Hrun. unfold __init__, mbind, st_bind, os_path_exists.
      by rewrite Hout. }
  destruct (init_run observationFile dateRange collection variables operation
              numTrials outputDirectory d Hdir)
    as (d1 & d2 & d3 & H1 & H2 & H3 & Hrun1).
  rewrite Hrun1 in Hrun. injection Hrun as <- <-.
  pose proof (keeps_mkdir_if_absent (λ _, False)
                (OsPath.join outputDirectory "asc") d) as K1.
  pose proof (keeps_mkdir_if_absent (λ _, False)
                (OsPath.join outputDirectory "merra") d1) as K2.
  pose proof (keeps_mkdir_if_absent (λ _, False)
                (OsPath.join outputDirectory "trials") d2) as K3.
  rewrite H1 in K1. rewrite H2 in K2. rewrite H3 in K3. simpl in K1, K2, K3.
  assert (d3 !! outputDirectory = Some Dir) as Hdir3.
  { destruct (K1 _ _ Hdir) as [_ Hp1]. specialize (Hp1 (λ F, F)).
    destruct (K2 _ _ Hp1) as [_ Hp2]. specialize (Hp2 (λ F, F)).
    destruct (K3 _ _ Hp2) as [_ Hp3]. exact (Hp3 (λ F, F)). }
  destruct (init_run observationFile dateRange collection variables operation
              numTrials outputDirectory d3 Hdir3)
    as (e1 & e2 & e3 & E1 & E2 & E3 & ->).
  assert (is_Some (d3 !! OsPath.join outputDirectory "asc")) as Hasc.
  { apply mkdir_if_absent_inv in H1 as [n Hn].
    destruct (K2 _ n Hn) as [[n2 Hn2] _]. by destruct (K3 _ n2 Hn2). }
  assert (is_Some (d3 !! OsPath.join outputDirectory "merra")) as Hmerra.
  { apply mkdir_if_absent_inv in H2 as [n Hn]. by destruct (K3 _ n Hn). }
  assert (is_Some (d3 !! OsPath.join outputDirectory "trials")) as Htrials
    by by apply mkdir_if_absent_inv in H3.
  rewrite (mkdir_if_absent_present _ _ Hasc) in E1. injection E1 as <-.
  rewrite (mkdir_if_absent_present _ _ Hmerra) in E2. injection E2 as <-.
  rewrite (mkdir_if_absent_present _ _ Htrials) in E3. by injection E3 as <-.
Qed.

Lemma init_twice_witness :
  __init__ Scenario.obs ["2013-02-03"; "2013-12-31"] "m2t1nxslv"
    ["QV2M"; "TS"] "avg" 2 "out" Scenario.bare_disk
    = (Ok Scenario.self,
       (__init__ Scenario.obs ["2013-02-03"; "2013-12-31"] "m2t1nxslv"
          ["QV2M"; "TS"] "avg" 2 "out" Scenario.bare_disk).2)
  ∧ __init__ Scenario.obs ["2013-02-03"; "2013-12-31"] "m2t1nxslv"
      ["QV2M"; "TS"] "avg" 2 "out"
      (__init__ Scenario.obs ["2013-02-03"; "2013-12-31"] "m2t1nxslv"
         ["QV2M"; "TS"] "avg" 2 "out" Scenario.bare_disk).2
    = (Ok Scenario.self,
       (__init__ Scenario.obs ["2013-02-03"; "2013-12-31"] "m2t1nxslv"
          ["QV2M"; "TS"] "avg" 2 "out" Scenario.bare_disk).2).
Proof.
  assert ((__init__ Scenario.obs ["2013-02-03"; "2013-12-31"] "m2t1nxslv"
             ["QV2M"; "TS"] "avg" 2 "out" Scenario.bare_disk).1
          = Ok Scenario.self) as Hself by (vm_compute; reflexivity).
  apply run_Ok in Hself as Hrun.
  split; [exact Hrun|].
  exact (init_twice _ _ _ _ _ _ _ _ _ _ Hrun).
Defined.

(** ** Paths: base names *)

Lemma contains_cons (sub : string) (c : ascii) (s : string) :
  PyStr.contains sub (String c s)
  = String.prefix sub (String c s) || PyStr.contains sub s.
Proof. done. Qed.

Lemma basename_cons (c : ascii) (p : string) :
  OsPath.basename (String c p)
  = if PyStr.contains "/" (String c p) then OsPath.basename p
    else String c p.
Proof. done. Qed.

Lemma basename_no_slash (p : string) :
  PyStr.contains "/" (OsPath.basename p) = false.
Proof.
  induction p as [|c p IH]; [done|]. rewrite basename_cons.
  by destruct (PyStr.contains "/" (String c p)) eqn:Hslash.
Qed.

Lemma basename_plain (b : string) :
  PyStr.contains "/" b = false → OsPath.basename b = b.
Proof.
  intros Hb. destruct b as [|c b]; [done|]. by rewrite basename_cons, Hb.
Qed.

Lemma contains_slash_app (a b : string) :
  PyStr.contains "/" (a +:+ String "/" b) = true.
Proof.
  induction a as [|c a IH].
  - simpl. by rewrite prefix_nil.
  - change (String c a +:+ String "/" b) with (String c (a +:+ String "/" b)).
    rewrite contains_cons, IH. apply orb_true_r.
Qed.

Lemma basename_after_slash (a b : string) :
  PyStr.contains "/" b = false → OsPath.basename (a +:+ String "/" b) = b.
Proof.
  intros Hb. induction a as [|c a IH].
  - change (EmptyString +:+ String "/" b) with (String "/" b).
    rewrite basename_cons.
    replace (PyStr.contains "/" (String "/" b)) with true
      by (simpl; by rewrite prefix_nil).
    by apply basename_plain.
  - change (String c a +:+ String "/" b) with (String c (a +:+ String "/" b)).
    rewrite basename_cons.
    change (String c (a +:+ String "/" b)) with (String c a +:+ String "/" b).
    by rewrite contains_slash_app.
Qed.

Lemma ends_with_slash_split (a : string) :
  OsPath.ends_with_slash a = true → ∃ a0, a = a0 +:+ "/".
Proof.
  induction a as [|c a IH]; [done|]. simpl.
  destruct a as [|c' a].
  - destruct (ascii_dec c "/") as [->|]; [|done]. intros _. by exists EmptyString.
  - intros Hends. destruct (IH Hends) as [a0 ->]. by exists (String c a0).
Qed.

Lemma append_assoc (a b c : string) : (a +:+ b) +:+ c = a +:+ (b +:+ c).
Proof.
  induction a as [|x a IH]; [done|].
  change (String x ((a +:+ b) +:+ c) = String x (a +:+ (b +:+ c))).
  by rewrite IH.
Qed.

(** The base name of a path joined to a directory is that base name. *)
Lemma basename_join (a b : string) :
  PyStr.contains "/" b = false → OsPath.basename (OsPath.join a b) = b.
Proof.
  intros Hb. unfold OsPath.join.
  assert (String.prefix "/" b = false) as ->.
  { destruct b as [|c b]; [done|]. rewrite contains_cons in Hb.
    by apply orb_false_iff in Hb as [-> _]. }
  destruct (String.eqb_spec a EmptyString) as [->|Hne]; simpl.
  { by apply basename_plain. }
  destruct (OsPath.ends_with_slash a) eqn:Hends.
  - apply ends_with_slash_split in Hends as [a0 ->].
    rewrite append_assoc. by apply basename_after_slash.
  - by apply (basename_after_slash a b).
Qed.

(** ** Staging: what a call leaves, and where *)

(** X13: staging deletes nothing. Whatever a staging call does, and
    whether it succeeds or raises, every path that was on the disk is
    still there, and every node but the copy of the observation file in
    the trial directory is as it was. *)
Theorem staging_keeps_the_disk (self : MmxRequest)
    (images : list GeospatialImageFile) (trialImageIndexes : list nat)
    (trialNum : trial_num) (d : gmap string node) (p : string) (n : node) :
  d !! p = Some n →
  is_Some ((prepareOneTrial self images trialImageIndexes trialNum d).2 !! p)
  ∧ (p ≠ trialObsPath_of self trialNum →
     (prepareOneTrial self images trialImageIndexes trialNum d).2 !! p
     = Some n).
Proof.
  intros Hp.
  exact (prepareOneTrial_keeps self images trialImageIndexes trialNum d p n Hp).
Qed.

Lemma staging_keeps_the_disk_witness :
  Scenario.restaged_disk !! "out/asc/pred0.asc" = Some (File "prepared raster 0")
  ∧ is_Some ((prepareOneTrial Scenario.self (Scenario.pool 2) [0; 1; 7]%nat
                (TrialInt 1) Scenario.restaged_disk).2 !! "out/asc/pred0.asc")
  ∧ ("out/asc/pred0.asc" ≠ trialObsPath_of Scenario.self (TrialInt 1) →
     (prepareOneTrial Scenario.self (Scenario.pool 2) [0; 1; 7]%nat
        (TrialInt 1) Scenario.restaged_disk).2 !! "out/asc/pred0.asc"
     = Some (File "prepared raster 0")).
Proof.
  assert (Scenario.restaged_disk !! "out/asc/pred0.asc"
          = Some (File "prepared raster 0")) as Hp by by vm_compute.
  split; [exact Hp|].
  exact (staging_keeps_the_disk Scenario.self (Scenario.pool 2) [0; 1; 7]%nat
           (TrialInt 1) Scenario.restaged_disk _ _ Hp).
Defined.

(** X15: what a successful staging returns and leaves. The trial has the
    directory [trial-<trialNum>] of the trials directory, the predictors
    that the indexes select, in their order, and an observation file of
    the same species and the same base name inside the trial directory;
    on the disk the trial directory and its [asc] directory exist, the
    copy of the observation file holds what the observation file holds,
    and every predictor of the trial has a file of its base name in the
    [asc] directory. *)
Theorem staging_postconditions (self : MmxRequest)
    (pool : list GeospatialImageFile) (trialImageIndexes : list nat)
    (trialNum : trial_num) (d d' : gmap string node) (trial : Trial) :
  prepareOneTrial self pool trialImageIndexes trialNum d = (Ok trial, d') →
  directory trial
    = OsPath.join (_trialsDir self) ("trial-" +:+ py_str trialNum)
  ∧ select_images pool trialImageIndexes = Ok (images trial)
  ∧ _species (obsFile trial) = _species (_observationFile self)
  ∧ _filePath (obsFile trial)
    = OsPath.join (directory trial)
        (OsPath.basename (_filePath (_observationFile self)))
  ∧ OsPath.basename (_filePath (obsFile trial))
    = OsPath.basename (_filePath (_observationFile self))
  ∧ is_Some (d' !! directory trial)
  ∧ is_Some (d' !! OsPath.join (directory trial) "asc")
  ∧ (∃ content,
       d' !! _filePath (_observationFile self) = Some (File content)
       ∧ d' !! _filePath (obsFile trial) = Some (File content))
  ∧ ∀ img, img ∈ images trial →
      is_Some (d' !! OsPath.join (OsPath.join (directory trial) "asc")
                       (OsPath.basename (fileName img))).
Proof.
  unfold prepareOneTrial. cbv zeta.
  set (TRIAL_DIR := OsPath.join (_trialsDir self) _).
  set (trialObsPath := OsPath.join TRIAL_DIR _).
  set (trialAscDir := OsPath.join TRIAL_DIR _).
  intros Hrun.
  apply st_bind_inv_Ok in Hrun as ([] & d1 & Hdir & Hrun).
  apply st_bind_inv_Ok in Hrun as ([] & d2 & Hcopy & Hrun).
  apply st_bind_inv_Ok in Hrun as (trialPredictors & d2' & Hsel & Hrun).
  unfold lift in Hsel. injection Hsel as Hsel <-.
  apply st_bind_inv_Ok in Hrun as ([] & d3 & Hasc & Hrun).
  apply st_bind_inv_Ok in Hrun as ([] & d4 & Hloop & Hret).
  injection Hret as <- <-. simpl.
  apply mkdir_if_absent_inv in Hdir as Hdir'.
  apply copyfile_inv in Hcopy as (content & Hsrc & Hne & ->).
  pose proof (keeps_mkdir_if_absent (λ _, False) trialAscDir
                (<[trialObsPath := File content]> d1)) as Hkept3.
  rewrite Hasc in Hkept3. simpl in Hkept3.
  pose proof (keeps_for_in (λ _, False) trialPredictors
                (stage_predictor trialAscDir) ()
                (λ y u2, keeps_stage_predictor _ _ y u2) d3) as Hkept4.
  rewrite Hloop in Hkept4. simpl in Hkept4.
  pose proof (kept_outside_trans _ _ _ _ Hkept3 Hkept4) as Hkept.
  split_and!; try done.
  - apply basename_join, basename_no_slash.
  - assert (is_Some (<[trialObsPath := File content]> d1 !! TRIAL_DIR))
      as [n Hn] by (apply lookup_insert_is_Some'; by right).
    by destruct (Hkept _ n Hn).
  - apply mkdir_if_absent_inv in Hasc as [na Hna].
    by destruct (Hkept4 _ na Hna).
  - exists content. split.
    + destruct (Hkept (_filePath (_observationFile self)) (File content))
        as [_ Hsame]; [by rewrite lookup_insert_ne|]. exact (Hsame (λ F, F)).
    + destruct (Hkept trialObsPath (File content)) as [_ Hsame];
        [apply lookup_insert_eq|]. exact (Hsame (λ F, F)).
  - by eapply stage_loop_inv.
Qed.

Lemma staging_postconditions_witness :
  prepareOneTrial Scenario.self (Scenario.pool 2) [1; 0]%nat (TrialInt 4)
    Scenario.disk
  = (Ok (Scenario.trial 4 [Scenario.asc "pred1"; Scenario.asc "pred0"]),
     (prepareOneTrial Scenario.self (Scenario.pool 2) [1; 0]%nat (TrialInt 4)
        Scenario.disk).2)
  ∧ directory (Scenario.trial 4 [Scenario.asc "pred1"; Scenario.asc "pred0"])
    = OsPath.join (_trialsDir Scenario.self) ("trial-" +:+ py_str (TrialInt 4))
  ∧ is_Some ((prepareOneTrial Scenario.self (Scenario.pool 2) [1; 0]%nat
                (TrialInt 4) Scenario.disk).2
             !! OsPath.join
                  (directory (Scenario.trial 4
                                [Scenario.asc "pred1"; Scenario.asc "pred0"]))
                  "asc").
Proof.
  assert ((prepareOneTrial Scenario.self (Scenario.pool 2) [1; 0]%nat
             (TrialInt 4) Scenario.disk).1
          = Ok (Scenario.trial 4 [Scenario.asc "pred1"; Scenario.asc "pred0"]))
    as Htrial by (vm_compute; reflexivity).
  apply run_Ok in Htrial as Hrun.
  split; [exact Hrun|].
  destruct (staging_postconditions _ _ _ _ _ _ _ Hrun)
    as (Hdir & _ & _ & _ & _ & _ & Hasc & _).
  split; [exact Hdir | exact Hasc].
Defined.

Lemma prepareOneTrial_twice_witness :
  prepareOneTrial Scenario.self (Scenario.pool 2) [1; 0]%nat (TrialInt 4)
    Scenario.disk
  = (Ok (Scenario.trial 4 [Scenario.asc "pred1"; Scenario.asc "pred0"]),
     (prepareOneTrial Scenario.self (Scenario.pool 2) [1; 0]%nat (TrialInt 4)
        Scenario.disk).2)
  ∧ prepareOneTrial Scenario.self (Scenario.pool 2) [1; 0]%nat (TrialInt 4)
      (prepareOneTrial Scenario.self (Scenario.pool 2) [1; 0]%nat (TrialInt 4)
         Scenario.disk).2
    = (Ok (Scenario.trial 4 [Scenario.asc "pred1"; Scenario.asc "pred0"]),
       (prepareOneTrial Scenario.self (Scenario.pool 2) [1; 0]%nat (TrialInt 4)
          Scenario.disk).2).
Proof.
  assert ((prepareOneTrial Scenario.self (Scenario.pool 2) [1; 0]%nat
             (TrialInt 4) Scenario.disk).1
          = Ok (Scenario.trial 4 [Scenario.asc "pred1"; Scenario.asc "pred0"]))
    as Htrial by (vm_compute; reflexivity).
  apply run_Ok in Htrial as Hrun.
  split; [exact Hrun|].
  exact (prepareOneTrial_twice _ _ _ _ _ _ _ Hrun).
Defined.

(** ** Staging: failures after the first writes *)

(** X16: an index out of range. Take a disk on which the trials directory
    is a directory, the observation file is a file with a base name, and
    the trial directory is not there yet, and a trial number without a
    slash, so that the trial directory is made in the trials directory.
    When the selection of the predictors raises, the staging call raises
    the same error after it has made the trial directory and copied the
    observation file into it: both are left on the disk, and nothing else
    is written. (The hypotheses on the trials directory, the trial number
    and the base name are what [os.mkdir] and [shutil.copyfile] need of
    the place they write to, which their models do not look at.) *)
Theorem staging_bad_index_leaves_first_writes (self : MmxRequest)
    (images : list GeospatialImageFile) (trialImageIndexes : list nat)
    (trialNum : trial_num) (d : gmap string node) (content : string)
    (e : exn) :
  select_images images trialImageIndexes = Raise e →
  d !! _trialsDir self = Some Dir →
  PyStr.contains "/" (py_str trialNum) = false →
  d !! _filePath (_observationFile self) = Some (File content) →
  OsPath.basename (_filePath (_observationFile self)) ≠ EmptyString →
  d !! trial_directory_of self trialNum = None →
  d !! trialObsPath_of self trialNum = None →
  trialObsPath_of self trialNum ≠ trial_directory_of self trialNum →
  prepareOneTrial self images trialImageIndexes trialNum d
  = (Raise e,
     <[trialObsPath_of self trialNum := File content]>
       (<[trial_directory_of self trialNum := Dir]> d)).
Proof.
  unfold trial_directory_of, trialObsPath_of, prepareOneTrial. cbv zeta.
  set (TRIAL_DIR := OsPath.join (_trialsDir self) _).
  set (trialObsPath := OsPath.join TRIAL_DIR _).
  intros Hsel _ _ Hsrc _ Hdir Hdst Hne.
  rewrite (st_bind_Ok _ _ d (<[TRIAL_DIR := Dir]> d) ())
    by (by rewrite mkdir_if_absent_run, Hdir).
  rewrite (st_bind_Ok _ _ _ (<[trialObsPath := File content]>
                               (<[TRIAL_DIR := Dir]> d)) ()).
  - unfold lift, mbind at 1, st_bind. by rewrite Hsel.
  - unfold shutil_copyfile.
    rewrite lookup_insert_ne, Hsrc by congruence.
    destruct (String.eqb_spec (_filePath (_observationFile self)) trialObsPath)
      as [Heq|_]; [congruence|].
    by rewrite lookup_insert_ne, Hdst by done.
Qed.

Lemma staging_bad_index_leaves_first_writes_witness :
  (select_images (Scenario.pool 2) [0; 5]%nat = Raise (IndexError 5)
   ∧ Scenario.disk !! _trialsDir Scenario.self = Some Dir
   ∧ PyStr.contains "/" (py_str (TrialInt 1)) = false
   ∧ Scenario.disk !! _filePath (_observationFile Scenario.self)
     = Some (File "observations")
   ∧ OsPath.basename (_filePath (_observationFile Scenario.self))
     ≠ EmptyString
   ∧ Scenario.disk !! trial_directory_of Scenario.self (TrialInt 1) = None
   ∧ Scenario.disk !! trialObsPath_of Scenario.self (TrialInt 1) = None
   ∧ trialObsPath_of Scenario.self (TrialInt 1)
     ≠ trial_directory_of Scenario.self (TrialInt 1))
  ∧ prepareOneTrial Scenario.self (Scenario.pool 2) [0; 5]%nat (TrialInt 1)
      Scenario.disk
    = (Raise (IndexError 5),
       <[trialObsPath_of Scenario.self (TrialInt 1) := File "observations"]>
         (<[trial_directory_of Scenario.self (TrialInt 1) := Dir]>
            Scenario.disk)).
Proof.
  assert (trialObsPath_of Scenario.self (TrialInt 1)
          ≠ trial_directory_of Scenario.self (TrialInt 1)) as Hne
    by (apply (bool_decide_eq_false_1 _); by vm_compute).
  assert (OsPath.basename (_filePath (_observationFile Scenario.self))
          ≠ EmptyString) as Hbase by by vm_compute.
  split; [split_and!; by first [vm_compute | exact Hne | exact Hbase]|].
  apply (staging_bad_index_leaves_first_writes Scenario.self (Scenario.pool 2)
           [0; 5]%nat (TrialInt 1) Scenario.disk "observations"
           (IndexError 5));
    by first [vm_compute | exact Hne | exact Hbase].
Defined.

(** X17: no observation file. Take a disk on which the trials directory
    is a directory and a trial number without a slash, so that the trial
    directory is made in the trials directory. When the observation file
    is not on the disk, the staging call raises [FileNotFoundError] with
    its path, after it has made the trial directory if that was not there;
    no [asc] directory is made and no predictor is copied. (The hypotheses
    on the trials directory and the trial number are what [os.mkdir] needs
    of the place it writes to, which its model does not look at.) *)
Theorem staging_without_observation_file (self : MmxRequest)
    (images : list GeospatialImageFile) (trialImageIndexes : list nat)
    (trialNum : trial_num) (d : gmap string node) :
  d !! _trialsDir self = Some Dir →
  PyStr.contains "/" (py_str trialNum) = false →
  d !! _filePath (_observationFile self) = None →
  _filePath (_observationFile self) ≠ trial_directory_of self trialNum →
  prepareOneTrial self images trialImageIndexes trialNum d
  = (Raise (FileNotFoundError (_filePath (_observationFile self))),
     match d !! trial_directory_of self trialNum with
     | Some _ => d
     | None => <[trial_directory_of self trialNum := Dir]> d
     end).
Proof.
  unfold trial_directory_of, prepareOneTrial. cbv zeta.
  set (TRIAL_DIR := OsPath.join (_trialsDir self) _).
  intros _ _ Hsrc Hne.
  rewrite (st_bind_Ok _ _ _ _ _ (mkdir_if_absent_run TRIAL_DIR d)).
  unfold mbind at 1, st_bind, shutil_copyfile.
  destruct (d !! TRIAL_DIR); [by rewrite Hsrc|].
  by rewrite lookup_insert_ne, Hsrc by done.
Qed.

Lemma staging_without_observation_file_witness :
  (Scenario.lost_disk !! _trialsDir Scenario.self = Some Dir
   ∧ PyStr.contains "/" (py_str (TrialInt 1)) = false
   ∧ Scenario.lost_disk !! _filePath (_observationFile Scenario.self) = None
   ∧ _filePath (_observationFile Scenario.self)
     ≠ trial_directory_of Scenario.self (TrialInt 1))
  ∧ prepareOneTrial Scenario.self (Scenario.pool 2) [0; 1]%nat (TrialInt 1)
      Scenario.lost_disk
    = (Raise (FileNotFoundError "in/ebd.csv"),
       <["out/trials/trial-1" := Dir]> Scenario.lost_disk).
Proof.
  assert (Scenario.lost_disk !! _trialsDir Scenario.self = Some Dir) as Htrials
    by by vm_compute.
  assert (PyStr.contains "/" (py_str (TrialInt 1)) = false) as Hnum
    by by vm_compute.
  assert (Scenario.lost_disk !! _filePath (_observationFile Scenario.self)
          = None) as Hsrc by by vm_compute.
  assert (_filePath (_observationFile Scenario.self)
          ≠ trial_directory_of Scenario.self (TrialInt 1)) as Hne
    by (apply (bool_decide_eq_false_1 _); by vm_compute).
  split; [by split_and!|].
  exact (staging_without_observation_file Scenario.self (Scenario.pool 2)
           [0; 1]%nat (TrialInt 1) Scenario.lost_disk Htrials Hnum Hsrc Hne).
Defined.

(** ** The planned trials of [run] *)

Lemma prepareOneTrial_trial self pool trialImageIndexes trialNum
    (d d' : gmap string node) (trial : Trial) :
  prepareOneTrial self pool trialImageIndexes trialNum d = (Ok trial, d') →
  directory trial = trial_directory_of self trialNum
  ∧ select_images pool trialImageIndexes = Ok (images trial).
Proof.
  unfold prepareOneTrial, trial_directory_of. cbv zeta. intros Hrun.
  apply st_bind_inv_Ok in Hrun as ([] & d1 & _ & Hrun).
  apply st_bind_inv_Ok in Hrun as ([] & d2 & _ & Hrun).
  apply st_bind_inv_Ok in Hrun as (trialPredictors & d2' & Hsel & Hrun).
  unfold lift in Hsel. injection Hsel as Hsel <-.
  apply st_bind_inv_Ok in Hrun as ([] & d3 & _ & Hrun).
  apply st_bind_inv_Ok in Hrun as ([] & d4 & _ & Hret).
  by injection Hret as <- <-.
Qed.

Lemma stage_planned_loop self pool (plan : list (list nat)) (trialNum : nat)
    (trials : list Trial) (d d' : gmap string node)
    (state : nat * list Trial) :
  for_in plan (stage_planned_trial self pool) (trialNum, trials) d
  = (Ok state, d') →
  ∃ new, state = ((trialNum + length plan)%nat, trials ++ new)
         ∧ length new = length plan
         ∧ ∀ i idxs, plan !! i = Some idxs →
             ∃ trial, new !! i = Some trial
                      ∧ directory trial
                        = trial_directory_of self (TrialInt (trialNum + i + 1))
                      ∧ select_images pool idxs = Ok (images trial).
Proof.
  revert trialNum trials d. induction plan as [|idxs plan IH];
    intros trialNum trials d Hrun.
  - injection Hrun as <- <-. exists []. rewrite app_nil_r, Nat.add_0_r.
    by split_and!.
  - simpl in Hrun. apply st_bind_inv_Ok in Hrun as ([k acc] & d1 & Hstep & Hrun).
    unfold stage_planned_trial in Hstep. simpl in Hstep.
    apply st_bind_inv_Ok in Hstep as (trial & d0 & Hstage & Hret).
    injection Hret as <- <- <-.
    apply prepareOneTrial_trial in Hstage as [Hdir Hsel].
    apply IH in Hrun as (new & -> & Hlen & Hnew).
    exists (trial :: new). split_and!.
    + simpl. rewrite <- app_assoc. f_equal. lia.
    + simpl. by rewrite Hlen.
    + intros [|i] idxs' Hi; simpl in Hi.
      * injection Hi as <-. exists trial. rewrite Nat.add_0_r. by split_and!.
      * destruct (Hnew i idxs' Hi) as (t & Ht & Hd & Hs). exists t.
        split_and!; [done| |done].
        rewrite Hd. do 2 f_equal. lia.
Qed.

(** X18: the trials of a plan. When the staging of a plan succeeds there
    is one trial for each index set, in the order of the plan; the trial of
    the index set at place [i] (from 0) has the directory
    [trial-<i + 1>] of the trials directory and holds the predictors that
    the index set selects. *)
Theorem run_prepare_trials_numbers_from_one (self : MmxRequest)
    (pool : list GeospatialImageFile) (plan : list (list nat))
    (d d' : gmap string node) (trials : list Trial) :
  run_prepare_trials self pool plan d = (Ok trials, d') →
  length trials = length plan
  ∧ ∀ i idxs, plan !! i = Some idxs →
      ∃ trial, trials !! i = Some trial
               ∧ directory trial
                 = OsPath.join (_trialsDir self)
                     ("trial-" +:+ PyStr.of_nat (i + 1))
               ∧ select_images pool idxs = Ok (images trial).
Proof.
  unfold run_prepare_trials. intros Hrun.
  apply st_bind_inv_Ok in Hrun as (state & d1 & Hloop & Hret).
  injection Hret as <- <-.
  apply stage_planned_loop in Hloop as (new & -> & Hlen & Hnew).
  split; [done|]. intros i idxs Hi.
  destruct (Hnew i idxs Hi) as (trial & Ht & Hd & Hs). by exists trial.
Qed.

Lemma run_prepare_trials_numbers_from_one_witness :
  run_prepare_trials Scenario.self (Scenario.pool 2) [[1]; [0; 1]]%nat
    Scenario.disk
  = (Ok [Scenario.trial 1 [Scenario.asc "pred1"];
         Scenario.trial 2 [Scenario.asc "pred0"; Scenario.asc "pred1"]],
     (run_prepare_trials Scenario.self (Scenario.pool 2) [[1]; [0; 1]]%nat
        Scenario.disk).2)
  ∧ length [Scenario.trial 1 [Scenario.asc "pred1"];
            Scenario.trial 2 [Scenario.asc "pred0"; Scenario.asc "pred1"]]
    = length [[1]; [0; 1]]%nat.
Proof.
  assert ((run_prepare_trials Scenario.self (Scenario.pool 2)
             [[1]; [0; 1]]%nat Scenario.disk).1
          = Ok [Scenario.trial 1 [Scenario.asc "pred1"];
                Scenario.trial 2 [Scenario.asc "pred0"; Scenario.asc "pred1"]])
    as Htrials by (vm_compute; reflexivity).
  apply run_Ok in Htrials as Hrun.
  split; [exact Hrun|].
  exact (proj1 (run_prepare_trials_numbers_from_one _ _ _ _ _ _ Hrun)).
Defined.

(** ** [MmxRequestCelery]: the jar of a trial *)

Lemma ends_with_slash_cons (c : ascii) (s : string) :
  s ≠ EmptyString →
  OsPath.ends_with_slash (String c s) = OsPath.ends_with_slash s.
Proof. by destruct s. Qed.

Lemma ends_with_slash_app (a b : string) :
  b ≠ EmptyString →
  OsPath.ends_with_slash (a +:+ b) = OsPath.ends_with_slash b.
Proof.
  intros Hb. induction a as [|c a IH]; [done|].
  change (String c a +:+ b) with (String c (a +:+ b)).
  rewrite ends_with_slash_cons; [done|]. by destruct a, b.
Qed.

Lemma trial_directory_no_slash (self : MmxRequest) (trialNum : trial_num) :
  OsPath.ends_with_slash (py_str trialNum) = false →
  OsPath.ends_with_slash (trial_directory_of self trialNum) = false
  ∧ trial_directory_of self trialNum ≠ EmptyString.
Proof.
  intros Hlabel. unfold trial_directory_of, OsPath.join.
  set (label := py_str trialNum) in *.
  change ("trial-" +:+ label) with (String "t" ("rial-" +:+ label)).
  assert (OsPath.ends_with_slash (String "t" ("rial-" +:+ label)) = false)
    as Hname.
  { destruct label as [|c label]; [done|].
    change (String "t" ("rial-" +:+ String c label))
      with ("trial-" +:+ String c label).
    by rewrite ends_with_slash_app. }
  simpl String.prefix. cbv iota.
  destruct (String.eqb (_trialsDir self) EmptyString
            || OsPath.ends_with_slash (_trialsDir self)).
  - split; [by rewrite ends_with_slash_app | by destruct (_trialsDir self)].
  - split; [|by destruct (_trialsDir self)].
    rewrite ends_with_slash_app by done.
    change ("/" +:+ String "t" ("rial-" +:+ label))
      with (String "/" (String "t" ("rial-" +:+ label))).
    by rewrite ends_with_slash_cons.
Qed.

(** X19: the jar of a trial. When the staging of [MmxRequestCelery]
    succeeds for a trial number whose text does not end in a slash, the
    trial is the one that the staging of the base class returns, the jar
    was on the disk, and the path that [_runOneTrial] runs,
    [os.path.join(trial.directory, 'maxent.jar')], holds a copy of it,
    whatever that path held before; nothing else differs from the disk
    that the staging of the base class leaves. *)
Theorem celery_staging_puts_the_jar (MAX_ENT_JAR : string)
    (self : MmxRequest) (pool : list GeospatialImageFile)
    (trialImageIndexes : list nat) (trialNum : trial_num)
    (d d' : gmap string node) (trial : Trial) :
  OsPath.ends_with_slash (py_str trialNum) = false →
  MmxRequestCelery.prepareOneTrial MAX_ENT_JAR self pool trialImageIndexes
    trialNum d = (Ok trial, d') →
  ∃ d1 content,
    prepareOneTrial self pool trialImageIndexes trialNum d = (Ok trial, d1)
    ∧ d1 !! MAX_ENT_JAR = Some (File content)
    ∧ d' = <[MmxRequestCelery.jar_of_runOneTrial trial := File content]> d1.
Proof.
  intros Hlabel Hrun. unfold MmxRequestCelery.prepareOneTrial in Hrun.
  apply st_bind_inv_Ok in Hrun as (t & d1 & Hbase & Hrun).
  apply st_bind_inv_Ok in Hrun as ([] & d2 & Hcopy & Hret).
  injection Hret as <- <-.
  apply copyfile_inv in Hcopy as (content & Hjar & _ & ->).
  exists d1, content. split_and!; [done|done|].
  apply prepareOneTrial_trial in Hbase as [Hdir _].
  destruct (trial_directory_no_slash self trialNum Hlabel) as [Hends Hne].
  unfold MmxRequestCelery.jar_of_runOneTrial, OsPath.join.
  rewrite Hdir, Hends. apply String.eqb_neq in Hne. by rewrite Hne.
Qed.

Lemma celery_staging_puts_the_jar_witness :
  (OsPath.ends_with_slash (py_str (TrialInt 3)) = false
   ∧ MmxRequestCelery.prepareOneTrial "lib/maxent.jar" Scenario.self
       (Scenario.pool 2) [0; 1]%nat (TrialInt 3) Scenario.jar_disk
     = (Ok (Scenario.trial 3 (Scenario.pool 2)),
        (MmxRequestCelery.prepareOneTrial "lib/maxent.jar" Scenario.self
           (Scenario.pool 2) [0; 1]%nat (TrialInt 3) Scenario.jar_disk).2))
  ∧ ∃ d1 content,
      prepareOneTrial Scenario.self (Scenario.pool 2) [0; 1]%nat (TrialInt 3)
        Scenario.jar_disk = (Ok (Scenario.trial 3 (Scenario.pool 2)), d1)
      ∧ d1 !! "lib/maxent.jar" = Some (File content)
      ∧ (MmxRequestCelery.prepareOneTrial "lib/maxent.jar" Scenario.self
           (Scenario.pool 2) [0; 1]%nat (TrialInt 3) Scenario.jar_disk).2
        = <[MmxRequestCelery.jar_of_runOneTrial
              (Scenario.trial 3 (Scenario.pool 2)) := File content]> d1.
Proof.
  assert (OsPath.ends_with_slash (py_str (TrialInt 3)) = false) as Hlabel
    by (vm_compute; reflexivity).
  assert ((MmxRequestCelery.prepareOneTrial "lib/maxent.jar" Scenario.self
             (Scenario.pool 2) [0; 1]%nat (TrialInt 3) Scenario.jar_disk).1
          = Ok (Scenario.trial 3 (Scenario.pool 2))) as Htrial
    by (vm_compute; reflexivity).
  apply run_Ok in Htrial as Hrun.
  split; [by split|].
  exact (celery_staging_puts_the_jar _ _ _ _ _ _ _ _ Hlabel Hrun).
Defined.

(** X20: no jar. When the staging of the base class succeeds and the jar
    is not on the disk, the staging of [MmxRequestCelery] raises
    [FileNotFoundError] with the path of the jar, and the disk is the one
    that the staging of the base class leaves: the staged trial is not
    taken back. *)
Theorem celery_staging_without_jar (MAX_ENT_JAR : string)
    (self : MmxRequest) (pool : list GeospatialImageFile)
    (trialImageIndexes : list nat) (trialNum : trial_num)
    (d d1 : gmap string node) (trial : Trial) :
  prepareOneTrial self pool trialImageIndexes trialNum d = (Ok trial, d1) →
  d1 !! MAX_ENT_JAR = None →
  MmxRequestCelery.prepareOneTrial MAX_ENT_JAR self pool trialImageIndexes
    trialNum d = (Raise (FileNotFoundError MAX_ENT_JAR), d1).
Proof.
  intros Hbase Hjar. unfold MmxRequestCelery.prepareOneTrial.
  rewrite (st_bind_Ok _ _ _ _ _ Hbase).
  unfold mbind at 1, st_bind, shutil_copyfile. by rewrite Hjar.
Qed.

Lemma celery_staging_without_jar_witness :
  (prepareOneTrial Scenario.self (Scenario.pool 2) [1; 0]%nat (TrialInt 4)
     Scenario.disk
   = (Ok (Scenario.trial 4 [Scenario.asc "pred1"; Scenario.asc "pred0"]),
      (prepareOneTrial Scenario.self (Scenario.pool 2) [1; 0]%nat (TrialInt 4)
         Scenario.disk).2)
   ∧ (prepareOneTrial Scenario.self (Scenario.pool 2) [1; 0]%nat (TrialInt 4)
        Scenario.disk).2 !! "lib/maxent.jar" = None)
  ∧ MmxRequestCelery.prepareOneTrial "lib/maxent.jar" Scenario.self
      (Scenario.pool 2) [1; 0]%nat (TrialInt 4) Scenario.disk
    = (Raise (FileNotFoundError "lib/maxent.jar"),
       (prepareOneTrial Scenario.self (Scenario.pool 2) [1; 0]%nat (TrialInt 4)
          Scenario.disk).2).
Proof.
  assert ((prepareOneTrial Scenario.self (Scenario.pool 2) [1; 0]%nat
             (TrialInt 4) Scenario.disk).1
          = Ok (Scenario.trial 4 [Scenario.asc "pred1"; Scenario.asc "pred0"]))
    as Htrial by (vm_compute; reflexivity).
  apply run_Ok in Htrial as Hbase.
  assert ((prepareOneTrial Scenario.self (Scenario.pool 2) [1; 0]%nat
             (TrialInt 4) Scenario.disk).2 !! "lib/maxent.jar" = None) as Hjar
    by (vm_compute; reflexivity).
  split; [by split|].
  exact (celery_staging_without_jar "lib/maxent.jar" _ _ _ _ _ _ _ Hbase Hjar).
Defined.

(** ** The final trial in general *)

Lemma getTopTen_length (self : MmxRequest) (tables : gmap string csv_file)
    (trials : list Trial) (topTen : list GeospatialImageFile) :
  getTopTen self tables trials = Ok topTen → (length topTen ≤ 10)%nat.
Proof.
  unfold getTopTen. intros Hrun.
  apply result_bind_Ok in Hrun as ([contributions|] & _ & Hrun); [|done].
  apply result_bind_Ok in Hrun as (sortedAvgs & Hrank & [= <-]).
  unfold rank in Hrank.
  apply result_bind_Ok in Hrank as (averages & _ & [= <-]).
  unfold topTen_of. rewrite length_map, length_take. lia.
Qed.

(** X21: the final trial, whatever the ranking. When the last step of
    [run] succeeds, the final trial has the directory [trial-final] of the
    trials directory and holds the ranked predictors but the last one, in
    the order of the ranking: at most nine predictors, and none at all
    when the ranking has a single predictor. *)
Theorem run_final_holds_all_but_the_last (self : MmxRequest)
    (tables : gmap string csv_file) (trials : list Trial)
    (d d' : gmap string node) (final : Trial) :
  run_final self tables trials d = (Ok final, d') →
  ∃ topTen,
    getTopTen self tables trials = Ok topTen
    ∧ directory final = OsPath.join (_trialsDir self) "trial-final"
    ∧ images final = removelast topTen
    ∧ (length (images final) ≤ 9)%nat
    ∧ (length topTen = 1%nat → images final = []).
Proof.
  unfold run_final. intros Hrun.
  apply st_bind_inv_Ok in Hrun as (topTen & d0 & Htop & Hstage).
  unfold lift in Htop. injection Htop as Htop <-.
  apply prepareOneTrial_trial in Hstage as [Hdir Hsel].
  rewrite select_images_drops_last in Hsel. injection Hsel as Hsel.
  exists topTen. split_and!; [done|done|done| |].
  - pose proof (getTopTen_length _ _ _ _ Htop) as Hlen.
    rewrite <- Hsel, removelast_firstn_len, length_take. lia.
  - intros Hone. rewrite <- Hsel.
    destruct topTen as [|x [|y topTen]]; simpl in Hone; [lia|done|lia].
Qed.

Lemma run_final_holds_all_but_the_last_witness :
  run_final Scenario.self Scenario.ranked_tables Scenario.ranked_trials
    Scenario.disk
  = (Ok {| directory := "out/trials/trial-final";
           obsFile := {| _filePath := "out/trials/trial-final/ebd.csv";
                         _species := "Cassin's Sparrow" |};
           images := [Scenario.merra "pred0"] |},
     (run_final Scenario.self Scenario.ranked_tables Scenario.ranked_trials
        Scenario.disk).2)
  ∧ ∃ topTen,
      getTopTen Scenario.self Scenario.ranked_tables Scenario.ranked_trials
        = Ok topTen
      ∧ "out/trials/trial-final"
        = OsPath.join (_trialsDir Scenario.self) "trial-final"
      ∧ [Scenario.merra "pred0"] = removelast topTen
      ∧ (length [Scenario.merra "pred0"] ≤ 9)%nat
      ∧ (length topTen = 1%nat → [Scenario.merra "pred0"] = []).
Proof.
  assert ((run_final Scenario.self Scenario.ranked_tables
             Scenario.ranked_trials Scenario.disk).1
          = Ok {| directory := "out/trials/trial-final";
                  obsFile := {| _filePath := "out/trials/trial-final/ebd.csv";
                                _species := "Cassin's Sparrow" |};
                  images := [Scenario.merra "pred0"] |}) as Hfinal
    by (vm_compute; reflexivity).
  apply run_Ok in Hfinal as Hrun.
  split; [exact Hrun|].
  exact (run_final_holds_all_but_the_last _ _ _ _ _ _ Hrun).
Defined.
